(** * ODE_PINN_SOFTBC: physics-informed loss and training loop

    A shallow embedding of [src/ode_PINN_softBC.py].

    Numbers.  Python and torch floats are idealised as exact rationals
    ([Q]); the two places where float arithmetic is visibly not field
    arithmetic are written out: NumPy's division by zero (the quotient is
    not finite and compares false with every threshold) and Python's
    [round] (half to even).  Python's [/] and [%] on numbers raise
    [ZeroDivisionError] on a zero divisor.  [Q] has no [nan]: where
    torch's own division yields one, the mean of an empty batch in
    [ResidualLoss], the embedding has a rational, and what is proved of
    the value of a loss is proved of batches that are not empty.

    Errors.  The checks the libraries make on the arguments this code
    hands them are written out where the code makes the call: a negative
    size given to [nn.Linear], a negative learning rate given to
    [optim.Adam], an empty dataset or a batch size that is not positive
    given to [DataLoader], a missing exact solution called in
    [L2_error].

    Collaborators.  The network's layers, the automatic differentiation
    engine, the random generator, the sampler's permutation and the
    optimizer's update rule are libraries outside the repository; they are
    gathered in the record [Collaborators] and every definition is
    parametric in it. *)

From Stdlib Require Import List ZArith QArith Qabs Qround Qpower Bool Arith Lia.
From Stdlib Require Import Permutation Lqa Sorted.
Import ListNotations.
Open Scope Q_scope.

(* ------------------------------------------------------------------ *)
(** ** Exceptions and fallible computations *)

Inductive exn : Type :=
| ConfigurationError
| ZeroDivisionError
| ValueError
| TypeError
| IndexError
| RuntimeError.

Inductive result (A : Type) : Type :=
| Ok (a : A)
| Raise (e : exn).
Arguments Ok {A} a.
Arguments Raise {A} e.

Definition bind {A B : Type} (c : result A) (k : A -> result B) : result B :=
  match c with
  | Ok a => k a
  | Raise e => Raise e
  end.

Definition result_map {A B : Type} (g : A -> B) (c : result A) : result B :=
  match c with
  | Ok a => Ok (g a)
  | Raise e => Raise e
  end.

(** A comprehension [[k(x) for x in l]] whose body may raise. *)
Fixpoint result_for {A B : Type} (k : A -> result B) (l : list A)
    : result (list B) :=
  match l with
  | [] => Ok []
  | x :: rest =>
      match k x with
      | Ok y => result_map (cons y) (result_for k rest)
      | Raise e => Raise e
      end
  end.

Notation "x <- c ;; k" := (bind c (fun x => k))
  (at level 61, c at next level, right associativity).
Notation "' p <- c ;; k" := (bind c (fun p => k))
  (at level 61, p pattern, c at next level, right associativity).

(* ------------------------------------------------------------------ *)
(** ** Python and NumPy arithmetic *)

Definition Qlt_bool (a b : Q) : bool := negb (Qle_bool b a).

(** [q ** 2] *)
Definition sq (q : Q) : Q := q ^ 2.

(** Python 3 [round(x)]: to the nearest integer, ties to the even one. *)
Definition py_round (q : Q) : Z :=
  let fl := Qfloor q in
  match Qcompare (q - inject_Z fl) (1 # 2) with
  | Lt => fl
  | Gt => (fl + 1)%Z
  | Eq => if Z.even fl then fl else (fl + 1)%Z
  end.

(** [a % b] on integers. *)
Definition py_mod (a b : Z) : result Z :=
  if (b =? 0)%Z then Raise ZeroDivisionError else Ok (a mod b)%Z.

(** [q / n] with an integer divisor. *)
Definition py_truediv (q : Q) (n : nat) : result Q :=
  if (n =? 0)%nat then Raise ZeroDivisionError
  else Ok (q / inject_Z (Z.of_nat n)).

(** [l[-1]] *)
Definition py_last (l : list Q) : result Q :=
  match rev l with
  | [] => Raise IndexError
  | v :: _ => Ok v
  end.

(** A NumPy float: division by zero yields [inf] or [nan], which no
    comparison [_ < c] accepts. *)
Inductive npfloat : Type :=
| Fin (q : Q)
| NonFinite.

Definition np_div (a b : Q) : npfloat :=
  if Qeq_bool b 0 then NonFinite else Fin (a / b).

Definition np_abs (x : npfloat) : npfloat :=
  match x with
  | Fin q => Fin (Qabs q)
  | NonFinite => NonFinite
  end.

Definition np_lt (x : npfloat) (c : Q) : bool :=
  match x with
  | Fin q => Qlt_bool q c
  | NonFinite => false
  end.

(** [np.diff a]: [a[i+1] - a[i]]. *)
Definition np_diff (a : list Q) : list Q :=
  map (fun p => fst p - snd p) (combine (tl a) a).

(** Elementwise [a / b]. *)
Definition np_divide (a b : list Q) : list npfloat :=
  map (fun p => np_div (fst p) (snd p)) (combine a b).

(** [(mask).sum()] *)
Definition count_true (l : list bool) : nat := length (filter (fun b => b) l).

(* ------------------------------------------------------------------ *)
(** ** Tensors and derivative tracking *)

(** A float tensor of shape [n, 1]: one scalar per row. *)
Definition tensor : Type := list Q.

(** A scalar that carries its computation graph with respect to the input
    row it was computed from: component [k] is its [k]-th derivative. *)
Definition tower : Type := nat -> Q.

Definition tracked : Type := list tower.

Definition value (t : tracked) : tensor := map (fun j => j 0%nat) t.

(** [torch.autograd.grad(y, x, grad_outputs=ones_like(y), create_graph=True)[0]]
    for a row-wise [y]: the derivative of every row, still tracked. *)
Definition autograd_grad (y : tracked) : tracked :=
  map (fun j => fun k => j (S k)) y.

Definition tsum (t : tensor) : Q := fold_right Qplus 0 t.

(** Elementwise difference of two tensors of the same shape. *)
Definition tsub (a b : tensor) : tensor :=
  map (fun p => fst p - snd p) (combine a b).

Definition tsub_scalar (a : tensor) (c : Q) : tensor := map (fun v => v - c) a.
Definition tadd (a b : tensor) : tensor :=
  map (fun p => fst p + snd p) (combine a b).
Definition tsq (a : tensor) : tensor := map sq a.
Definition tscale (c : Q) (a : tensor) : tensor := map (fun v => c * v) a.

(** [.squeeze()] of a one-element tensor. *)
Definition squeeze (t : tensor) : Q :=
  match t with
  | [q] => q
  | _ => 0
  end.

(** [torch.linspace(a, b, steps)] *)
Definition linspace (a b : Q) (steps : nat) : tensor :=
  map (fun i => a + inject_Z (Z.of_nat i) * ((b - a) / inject_Z (Z.of_nat (steps - 1))))
      (seq 0 steps).

(** [torch.trapz(z, x)] *)
Fixpoint trapz (z x : tensor) : Q :=
  match z, x with
  | z0 :: ((z1 :: _) as zs), x0 :: ((x1 :: _) as xs) =>
      (x1 - x0) * (z0 + z1) / 2 + trapz zs xs
  | _, _ => 0
  end.

(** [DataLoader]'s batching with [drop_last=False]. *)
Fixpoint batches_aux {A : Type} (fuel bs : nat) (l : list A) : list (list A) :=
  match fuel with
  | O => []
  | S k =>
      match l with
      | [] => []
      | _ :: _ => firstn bs l :: batches_aux k bs (skipn bs l)
      end
  end.

Definition batches {A : Type} (bs : nat) (l : list A) : list (list A) :=
  batches_aux (length l) bs l.

(* ------------------------------------------------------------------ *)
(** ** Network architecture *)

(** The layers a model is assembled from.  [Rff] stands for the feature
    encoder [rff(1, rff_num, u, std, rff_B)] of [src/nn_rff.py], which is
    not among the sources; only its constructor arguments are kept. *)
#[warnings="-register-all"]
Inductive layer : Type :=
| Rff (n_in num : Z) (u std : Q) (B : option tensor)
| Linear (n_in n_out : Z)
| Tanh
| Sequential (ls : list layer).

(** [range(n)] has no element when [n] is negative. *)
Definition range_len (n : Z) : nat := Z.to_nat n.

(** [nn.Linear(n_in, n_out)]: torch cannot allocate a weight with a
    negative size and raises [RuntimeError]. *)
Definition nn_Linear (n_in n_out : Z) : result layer :=
  if ((n_in <? 0) || (n_out <? 0))%Z then Raise RuntimeError
  else Ok (Linear n_in n_out).

(** [optim.Adam(params, lr=lr0)] refuses a negative learning rate with
    [ValueError]; its other arguments are left at their defaults. *)
Definition optim_Adam (lr0 : Q) : result unit :=
  if Qle_bool 0 lr0 then Ok tt else Raise ValueError.

(* ------------------------------------------------------------------ *)
(** ** External collaborators *)

Record Collaborators : Type := {
  (** learnable parameters together with the optimizer's accumulators *)
  Params : Type;
  (** state of torch's global random generator *)
  Rng : Type;
  (** random initialisation of the layers of an architecture *)
  init_params : layer -> Rng -> Params * Rng;
  (** the function computed by the network, with its derivatives *)
  fwd : Params -> Q -> tower;
  (** what the constructor of the feature encoder [rff] raises, if it
      raises *)
  rff_error : Z -> Z -> Q -> Q -> option tensor -> option exn;
  (** [torch.manual_seed] *)
  manual_seed : Z -> Rng;
  (** [torch.rand(n, 1)] *)
  torch_rand : Rng -> nat -> tensor * Rng;
  torch_rand_length : forall g n, length (fst (torch_rand g n)) = n;
  (** the permutation drawn by the shuffling sampler *)
  randperm : Rng -> nat -> list nat * Rng;
  randperm_length : forall g n, length (fst (randperm g n)) = n;
  (** one Adam update at the given learning rate for the given loss *)
  adam_step : Q -> (Params -> Q) -> Params -> Params;
  (** [x ** 0.5] *)
  float_sqrt : Q -> Q
}.

(* ------------------------------------------------------------------ *)
(** ** The model object *)

Record model (E : Collaborators) : Type := {
  f : tensor -> tensor -> tensor -> tensor;
  lb : Q;
  ub : Q;
  BC : Z * Q * Q;
  xl : tensor;
  xu : tensor;
  train_loss : list Q;
  validate_loss : list Q;
  L2_loss : list Q;
  lambdas : Q * Q * Q;
  n_hidden : Z;
  n_layers : Z;
  rff_para : bool * Z * Q * Q;
  rff_B : option tensor;
  input : layer;
  hiddens : layer;
  output : layer;
  net : layer;
  training : bool;
  parameters : Params E
}.
Arguments f {E} m. Arguments lb {E} m. Arguments ub {E} m.
Arguments BC {E} m. Arguments xl {E} m. Arguments xu {E} m.
Arguments train_loss {E} m. Arguments validate_loss {E} m.
Arguments L2_loss {E} m. Arguments lambdas {E} m.
Arguments n_hidden {E} m. Arguments n_layers {E} m.
Arguments rff_para {E} m. Arguments rff_B {E} m.
Arguments input {E} m. Arguments hiddens {E} m. Arguments output {E} m.
Arguments net {E} m. Arguments training {E} m. Arguments parameters {E} m.

(** Tuple indexing. *)
Definition BC0 (bc : Z * Q * Q) : Z := fst (fst bc).
Definition BC1 (bc : Z * Q * Q) : Q := snd (fst bc).
Definition BC2 (bc : Z * Q * Q) : Q := snd bc.
Definition lambdas0 (l : Q * Q * Q) : Q := fst (fst l).
Definition lambdas1 (l : Q * Q * Q) : Q := snd (fst l).
Definition lambdas2 (l : Q * Q * Q) : Q := snd l.

Section Model.

Variable E : Collaborators.

Definition with_parameters (m : model E) (p : Params E) : model E :=
  {| f := f m; lb := lb m; ub := ub m; BC := BC m; xl := xl m; xu := xu m;
     train_loss := train_loss m; validate_loss := validate_loss m;
     L2_loss := L2_loss m; lambdas := lambdas m;
     n_hidden := n_hidden m; n_layers := n_layers m;
     rff_para := rff_para m; rff_B := rff_B m;
     input := input m; hiddens := hiddens m; output := output m;
     net := net m; training := training m; parameters := p |}.

Definition with_lambdas (m : model E) (l : Q * Q * Q) : model E :=
  {| f := f m; lb := lb m; ub := ub m; BC := BC m; xl := xl m; xu := xu m;
     train_loss := train_loss m; validate_loss := validate_loss m;
     L2_loss := L2_loss m; lambdas := l;
     n_hidden := n_hidden m; n_layers := n_layers m;
     rff_para := rff_para m; rff_B := rff_B m;
     input := input m; hiddens := hiddens m; output := output m;
     net := net m; training := training m; parameters := parameters m |}.

Definition with_BC (m : model E) (bc : Z * Q * Q) : model E :=
  {| f := f m; lb := lb m; ub := ub m; BC := bc; xl := xl m; xu := xu m;
     train_loss := train_loss m; validate_loss := validate_loss m;
     L2_loss := L2_loss m; lambdas := lambdas m;
     n_hidden := n_hidden m; n_layers := n_layers m;
     rff_para := rff_para m; rff_B := rff_B m;
     input := input m; hiddens := hiddens m; output := output m;
     net := net m; training := training m; parameters := parameters m |}.

Definition with_training (m : model E) (b : bool) : model E :=
  {| f := f m; lb := lb m; ub := ub m; BC := BC m; xl := xl m; xu := xu m;
     train_loss := train_loss m; validate_loss := validate_loss m;
     L2_loss := L2_loss m; lambdas := lambdas m;
     n_hidden := n_hidden m; n_layers := n_layers m;
     rff_para := rff_para m; rff_B := rff_B m;
     input := input m; hiddens := hiddens m; output := output m;
     net := net m; training := b; parameters := parameters m |}.

Definition append_train_loss (m : model E) (v : Q) : model E :=
  {| f := f m; lb := lb m; ub := ub m; BC := BC m; xl := xl m; xu := xu m;
     train_loss := train_loss m ++ [v]; validate_loss := validate_loss m;
     L2_loss := L2_loss m; lambdas := lambdas m;
     n_hidden := n_hidden m; n_layers := n_layers m;
     rff_para := rff_para m; rff_B := rff_B m;
     input := input m; hiddens := hiddens m; output := output m;
     net := net m; training := training m; parameters := parameters m |}.

Definition append_validate_loss (m : model E) (v : Q) : model E :=
  {| f := f m; lb := lb m; ub := ub m; BC := BC m; xl := xl m; xu := xu m;
     train_loss := train_loss m; validate_loss := validate_loss m ++ [v];
     L2_loss := L2_loss m; lambdas := lambdas m;
     n_hidden := n_hidden m; n_layers := n_layers m;
     rff_para := rff_para m; rff_B := rff_B m;
     input := input m; hiddens := hiddens m; output := output m;
     net := net m; training := training m; parameters := parameters m |}.

Definition append_L2_loss (m : model E) (v : Q) : model E :=
  {| f := f m; lb := lb m; ub := ub m; BC := BC m; xl := xl m; xu := xu m;
     train_loss := train_loss m; validate_loss := validate_loss m;
     L2_loss := L2_loss m ++ [v]; lambdas := lambdas m;
     n_hidden := n_hidden m; n_layers := n_layers m;
     rff_para := rff_para m; rff_B := rff_B m;
     input := input m; hiddens := hiddens m; output := output m;
     net := net m; training := training m; parameters := parameters m |}.

(** [ODE_PINN_SOFTBC.__init__] *)
Definition init (f0 : tensor -> tensor -> tensor -> tensor) (lb0 ub0 : Q)
    (BC0' : Z * Q * Q) (lambdas' : Q * Q * Q) (n_hidden0 n_layers0 : Z)
    (set_rff : bool) (rff_num : Z) (u std : Q) (rff_B0 : option tensor)
    (g : Rng E) : result (model E * Rng E) :=
  let activation := Tanh in
  input0 <-
    (if set_rff
     then
       r <- match rff_error E 1 rff_num u std rff_B0 with
            | Some e => Raise e
            | None => Ok (Rff 1 rff_num u std rff_B0)
            end ;;
       l <- nn_Linear (2 * rff_num) n_hidden0 ;;
       Ok (Sequential [r; l; activation])
     else
       l <- nn_Linear 1 n_hidden0 ;;
       Ok (Sequential [l; activation])) ;;
  blocks <- result_for (fun _ => l <- nn_Linear n_hidden0 n_hidden0 ;;
                                 Ok (Sequential [l; activation]))
                       (seq 0 (range_len (n_layers0 - 3))) ;;
  let hiddens0 := Sequential blocks in
  output0 <- nn_Linear n_hidden0 1 ;;
  let fwd0 := Sequential [input0; hiddens0; output0] in
  let pg := init_params E fwd0 g in
  Ok ({| f := f0; lb := lb0; ub := ub0; BC := BC0';
         xl := [lb0]; xu := [ub0];
         train_loss := []; validate_loss := []; L2_loss := [];
         lambdas := lambdas';
         n_hidden := n_hidden0; n_layers := n_layers0;
         rff_para := (set_rff, rff_num, u, std); rff_B := rff_B0;
         input := input0; hiddens := hiddens0; output := output0;
         net := fwd0; training := true; parameters := fst pg |},
      snd pg).

(** [forward] *)
Definition forward (m : model E) (x : tensor) : tracked :=
  map (fwd E (parameters m)) x.

(** [sample_one_batch] *)
Definition sample_one_batch (m : model E) (batch_size : nat) (random_seed : Z)
    (g : Rng E) : tensor * Rng E :=
  let g := if (0 <? random_seed)%Z then manual_seed E random_seed else g in
  let ug := torch_rand E g batch_size in
  (map (fun t => (ub m - lb m) * t + lb m) (fst ug), snd ug).

(** The three summands computed by [ResidualLoss]: [(Lp, Lb1, Lb2)].
    [Lp] is torch's quotient [sum / len(x)], a rational for every batch
    that is not empty; on an empty batch torch has [nan], which [Q] does
    not hold, and nothing is claimed of the value there. *)
Definition ResidualLoss_terms (m : model E) (x : tensor) (y_hat : tracked)
    : Q * Q * Q :=
  let D1y_hat := autograd_grad y_hat in
  let D2y_hat := autograd_grad D1y_hat in
  let f_hat := f m x (value y_hat) (value D1y_hat) in
  let Lp := tsum (tsq (tsub (value D2y_hat) f_hat)) / inject_Z (Z.of_nat (length x)) in
  if (BC0 (BC m) =? 1)%Z then
    let Lb1 := squeeze (tscale (lambdas1 (lambdas m))
                 (tsq (tsub_scalar (value (forward m (xl m))) (BC1 (BC m))))) in
    let Lb2 := squeeze (tscale (lambdas2 (lambdas m))
                 (tsq (tsub_scalar (value (forward m (xu m))) (BC2 (BC m))))) in
    (Lp, Lb1, Lb2)
  else if (BC0 (BC m) =? 2)%Z then
    let y_hat_l := forward m (xl m) in
    let y_hat_u := forward m (xu m) in
    let D1y_hat_u := autograd_grad y_hat_u in
    let Lb1 := squeeze (tscale (lambdas1 (lambdas m))
                 (tsq (tsub_scalar (value y_hat_l) (BC1 (BC m))))) in
    let Lb2 := squeeze (tscale (lambdas2 (lambdas m))
                 (tsq (tsub_scalar (value D1y_hat_u) (BC2 (BC m))))) in
    (Lp, Lb1, Lb2)
  else
    let y_hat_l := forward m (xl m) in
    let y_hat_u := forward m (xu m) in
    let D1y_hat_l := autograd_grad y_hat_l in
    let D1y_hat_u := autograd_grad y_hat_u in
    let Lb1 := squeeze (tscale (lambdas1 (lambdas m))
                 (tsq (tsub_scalar (tadd (value y_hat_l) (value D1y_hat_l))
                                   (BC1 (BC m))))) in
    let Lb2 := squeeze (tscale (lambdas2 (lambdas m))
                 (tsq (tsub_scalar (value D1y_hat_u) (BC2 (BC m))))) in
    (Lp, Lb1, Lb2).

Definition Lp_of (t : Q * Q * Q) : Q := fst (fst t).
Definition Lb1_of (t : Q * Q * Q) : Q := snd (fst t).
Definition Lb2_of (t : Q * Q * Q) : Q := snd t.

(** [ResidualLoss]: [return Lp + Lb1 + Lb2] *)
Definition ResidualLoss (m : model E) (x : tensor) (y_hat : tracked) : Q :=
  let t := ResidualLoss_terms m x y_hat in
  Lp_of t + Lb1_of t + Lb2_of t.

(** [L2_error] *)
Definition L2_error (m : model E) (true_sol : option (tensor -> tensor))
    : result (model E * Q) :=
  let m := with_training m false in
  let x := linspace (lb m) (ub m) 2000 in
  let y_hat := forward m x in
  match true_sol with
  | None => Raise TypeError
  | Some sol =>
      let y_true := sol x in
      let z := tsq (tsub y_true (value y_hat)) in
      let res := trapz z x in
      Ok (m, float_sqrt E res)
  end.

(** [Validate] *)
Definition Validate (m : model E) (sample_num : nat) (random_seed : Z)
    (g : Rng E) : model E * Q * Rng E :=
  let m := with_training m false in
  let xg := sample_one_batch m sample_num random_seed g in
  let y_hat := forward m (fst xg) in
  let loss := ResidualLoss m (fst xg) y_hat in
  (m, loss, snd xg).

End Model.

(* ------------------------------------------------------------------ *)
(** ** Data loading *)

(** Modelled from the spec: [UnlabeledDataset] ([src/unlabeled_dataset.py]
    is not among the sources), the dataset that wraps the sample tensor;
    the spec gives the sampler by "the shape and domain of the samples it
    yields", so a dataset is the tensor of its samples, one item per row.
    The record is torch's [DataLoader] over it, built with [shuffle=True]
    and the default [drop_last=False]. *)
Record DataLoader : Type := {
  dataset : tensor;
  batch_size : nat
}.

(** [len(loader)] *)
Definition loader_len (dl : DataLoader) : nat :=
  ((length (dataset dl) + batch_size dl - 1) / batch_size dl)%nat.

(* ------------------------------------------------------------------ *)
(** ** Training *)

(** What [print] writes, one constructor per format string. *)
Inductive line : Type :=
| Rule
| EpochBanner (epoch max_epoch : nat)
| StepReport (epoch max_epoch step n_batches : nat) (loss : Q)
| EpochReport (epoch max_epoch : nat) (tr va : Q) (l2 : option Q)
| TestReport (loss : Q).

(** The arguments of [Train]. *)
Record train_args : Type := {
  train_num : nat;
  train_batch_size : nat;
  learning_rate : Q;
  lr_step_size : nat;
  min_lr : Q;
  lr_gamma : Q;
  abs_tolerance : Q;
  max_epoch : nat;
  compute_L2_loss : bool;
  true_sol : option (tensor -> tensor);
  display : bool
}.

(** The model, the process-wide state it runs in (random generator,
    standard output) and the locals of [Train]: the optimizer's learning
    rate [param_groups[0]['lr']], its count of updates, and the
    scheduler's [last_epoch]. *)
Record run (E : Collaborators) : Type := {
  self : model E;
  gen : Rng E;
  stdout : list line;
  lr : Q;
  opt_steps : nat;
  last_epoch : nat
}.
Arguments self {E} r. Arguments gen {E} r. Arguments stdout {E} r.
Arguments lr {E} r. Arguments opt_steps {E} r. Arguments last_epoch {E} r.

Section Training.

Variable E : Collaborators.

Definition with_self (st : run E) (m : model E) : run E :=
  {| self := m; gen := gen st; stdout := stdout st; lr := lr st;
     opt_steps := opt_steps st; last_epoch := last_epoch st |}.

Definition with_gen (st : run E) (g : Rng E) : run E :=
  {| self := self st; gen := g; stdout := stdout st; lr := lr st;
     opt_steps := opt_steps st; last_epoch := last_epoch st |}.

Definition print (st : run E) (ls : list line) : run E :=
  {| self := self st; gen := gen st; stdout := stdout st ++ ls; lr := lr st;
     opt_steps := opt_steps st; last_epoch := last_epoch st |}.

(** [construct_train_dataloader].  [DataLoader(dataset, batch_size,
    shuffle=True)] raises [ValueError] on an empty dataset (its random
    sampler wants a positive number of samples) and on a batch size that
    is not positive. *)
Definition construct_train_dataloader (m : model E) (train_batch_size0 : nat)
    (train_sample_num : nat) (g : Rng E) : result (DataLoader * Rng E) :=
  let ug := torch_rand E g train_sample_num in
  let x_tensor := map (fun t => (ub m - lb m) * t + lb m) (fst ug) in
  if (train_sample_num =? 0)%nat then Raise ValueError
  else if (train_batch_size0 =? 0)%nat then Raise ValueError
  else Ok ({| dataset := x_tensor; batch_size := train_batch_size0 |}, snd ug).

(** One pass of [for x in train_dataloader]: the batches of a fresh
    permutation of the dataset. *)
Definition loader_iter (dl : DataLoader) (g : Rng E) : list tensor * Rng E :=
  let pg := randperm E g (length (dataset dl)) in
  (batches (batch_size dl) (map (fun i => nth i (dataset dl) 0) (fst pg)), snd pg).

(** [optimizer.step()] after [loss.backward()] on the batch [x]. *)
Definition optimizer_step (st : run E) (x : tensor) : run E :=
  let m := self st in
  let loss_of := fun p =>
    ResidualLoss E (with_parameters E m p) x (forward E (with_parameters E m p) x) in
  {| self := with_parameters E m (adam_step E (lr st) loss_of (parameters m));
     gen := gen st; stdout := stdout st; lr := lr st;
     opt_steps := S (opt_steps st); last_epoch := last_epoch st |}.

(** [scheduler.step()] of [StepLR(optimizer, step_size, gamma)]. *)
Definition scheduler_step (step_size : nat) (gamma : Q) (st : run E)
    : result (run E) :=
  let e := S (last_epoch st) in
  r <- py_mod (Z.of_nat e) (Z.of_nat step_size) ;;
  Ok {| self := self st; gen := gen st; stdout := stdout st;
        lr := if (r =? 0)%Z then lr st * gamma else lr st;
        opt_steps := opt_steps st; last_epoch := e |}.

Section Loop.

Variable a : train_args.
Variable train_dataloader : DataLoader.

Definition n_train_batches : nat := loader_len train_dataloader.

(** The body of [for i, x in enumerate(train_dataloader)], from step
    [i] on; [acc] is the running [train_loss]. *)
Fixpoint train_batches (epoch i : nat) (xs : list tensor) (st : run E)
    (acc : Q) : result (run E * Q) :=
  match xs with
  | [] => Ok (st, acc)
  | x :: rest =>
      let y_hat := forward E (self st) x in
      let loss := ResidualLoss E (self st) x y_hat in
      let st := optimizer_step st x in
      let acc := acc + loss in
      st <- (if display a then
               shown <- (if (i =? 0)%nat then Ok true
                         else r <- py_mod (Z.of_nat (i + 1))
                                     (py_round (inject_Z (Z.of_nat n_train_batches) / 5)) ;;
                              Ok (r =? 0)%Z) ;;
               Ok (if shown : bool
                   then print st [StepReport (epoch + 1) (max_epoch a) (i + 1)
                                    n_train_batches loss]
                   else st)
             else Ok st) ;;
      train_batches epoch (S i) rest st acc
  end.

(** [validate_num = round(train_num/3)] *)
Definition validate_num : Z := py_round (inject_Z (Z.of_nat (train_num a)) / 3).

(** Everything an epoch does before the stopping rule. *)
Definition epoch_body (epoch : nat) (st : run E) : result (run E) :=
  let st := if display a
            then print st [Rule; EpochBanner (epoch + 1) (max_epoch a)]
            else st in
  let st := with_self st (with_training E (self st) true) in
  let xg := loader_iter train_dataloader (gen st) in
  ' (st, train_loss0) <- train_batches epoch 0 (fst xg) (with_gen st (snd xg)) 0 ;;
  let vr := Validate E (self st) (Z.to_nat validate_num) (-1) (gen st) in
  let va := snd (fst vr) in
  let st := with_gen (with_self st (append_validate_loss E (fst (fst vr)) va)) (snd vr) in
  tr <- py_truediv train_loss0 n_train_batches ;;
  let st := with_self st (append_train_loss E (self st) tr) in
  ' (st, l2) <- (if compute_L2_loss a then
                  ' (m, e) <- L2_error E (self st) (true_sol a) ;;
                  Ok (with_self st (append_L2_loss E m e), Some e)
                else Ok (st, None)) ;;
  Ok (if display a
      then print st [EpochReport (epoch + 1) (max_epoch a) tr va l2]
      else st).

(** The three stages of [epoch_body]: the state in which the first
    mini-batch step runs, the batches of the pass, and what follows
    the mini-batch loop. *)
Definition epoch_start (epoch : nat) (st : run E) : run E :=
  let st := if display a
            then print st [Rule; EpochBanner (epoch + 1) (max_epoch a)]
            else st in
  let st := with_self st (with_training E (self st) true) in
  with_gen st (snd (loader_iter train_dataloader (gen st))).

Definition epoch_batches (st : run E) : list tensor :=
  fst (loader_iter train_dataloader (gen st)).

Definition epoch_end (epoch : nat) (st : run E) (train_loss0 : Q)
    : result (run E) :=
  let vr := Validate E (self st) (Z.to_nat validate_num) (-1) (gen st) in
  let va := snd (fst vr) in
  let st := with_gen (with_self st (append_validate_loss E (fst (fst vr)) va)) (snd vr) in
  tr <- py_truediv train_loss0 n_train_batches ;;
  let st := with_self st (append_train_loss E (self st) tr) in
  ' (st, l2) <- (if compute_L2_loss a then
                  ' (m, e) <- L2_error E (self st) (true_sol a) ;;
                  Ok (with_self st (append_L2_loss E m e), Some e)
                else Ok (st, None)) ;;
  Ok (if display a
      then print st [EpochReport (epoch + 1) (max_epoch a) tr va l2]
      else st).

(** The window [np.array(validate_loss)[-1:-27:-1]], newest first. *)
Definition plateau_window (vl : list Q) : list Q := firstn 26 (rev vl).

(** [np.abs(np.diff(w) / w[:25])] *)
Definition relative_changes (w : list Q) : list npfloat :=
  map np_abs (np_divide (np_diff w) (firstn 25 w)).

(** [(rel < 0.0001).sum() == 25] *)
Definition plateau (vl : list Q) : bool :=
  (count_true (map (fun r => np_lt r (1 # 10000))
                   (relative_changes (plateau_window vl))) =? 25)%nat.

(** The [if]/[elif] chain that ends an epoch: [true] is [break]. *)
Definition stopping_rule (st : run E) : result (bool * run E) :=
  v <- py_last (validate_loss (self st)) ;;
  if Qlt_bool v (abs_tolerance a) then Ok (true, st)
  else if (26 <? length (validate_loss (self st)))%nat then
    if plateau (validate_loss (self st)) then Ok (true, st) else Ok (false, st)
  else if Qlt_bool (min_lr a) (lr st) then
    st <- scheduler_step (lr_step_size a) (lr_gamma a) st ;;
    Ok (false, st)
  else Ok (false, st).

(** [for epoch in range(max_epoch)], with [remaining] epochs to go. *)
Fixpoint epochs (remaining epoch : nat) (st : run E) : result (run E) :=
  match remaining with
  | O => Ok st
  | S r =>
      st <- epoch_body epoch st ;;
      ' (stop, st) <- stopping_rule st ;;
      if stop : bool then Ok st else epochs r (S epoch) st
  end.

End Loop.

(** What the mini-batch steps leave alone: the three histories, the
    generator, the learning rate and the scheduler's counter. *)
Definition books_kept (st st' : run E) : Prop :=
  train_loss (self st') = train_loss (self st)
  /\ validate_loss (self st') = validate_loss (self st)
  /\ L2_loss (self st') = L2_loss (self st)
  /\ gen st' = gen st
  /\ lr st' = lr st
  /\ last_epoch st' = last_epoch st.

(** What of a model states the problem and the architecture: everything
    but the parameters, the histories and the mode. *)
Definition settings (m : model E) :=
  (f m, lb m, ub m, BC m, xl m, xu m, lambdas m,
   (n_hidden m, n_layers m, rff_para m, rff_B m),
   (input m, hiddens m, output m, net m)).

(** The learning rate after [k] decays of a rate [lr0]. *)
Fixpoint decayed (lr0 gamma : Q) (k : nat) : Q :=
  match k with
  | O => lr0
  | S k' => decayed lr0 gamma k' * gamma
  end.

(** A run state with what was printed forgotten. *)
Definition mute (st : run E) : run E :=
  {| self := self st; gen := gen st; stdout := []; lr := lr st;
     opt_steps := opt_steps st; last_epoch := last_epoch st |}.

(** The same arguments with the display flag set to [b]. *)
Definition with_display (a : train_args) (b : bool) : train_args :=
  {| train_num := train_num a; train_batch_size := train_batch_size a;
     learning_rate := learning_rate a; lr_step_size := lr_step_size a;
     min_lr := min_lr a; lr_gamma := lr_gamma a;
     abs_tolerance := abs_tolerance a; max_epoch := max_epoch a;
     compute_L2_loss := compute_L2_loss a; true_sol := true_sol a;
     display := b |}.

(** The divisor of the progress test, [round(n_train_batches/5)]. *)
Definition progress_period (dl : DataLoader) : Z :=
  py_round (inject_Z (Z.of_nat (n_train_batches dl)) / 5).

(** [Train] *)
Definition Train (a : train_args) (m : model E) (g : Rng E) (out : list line)
    : result (run E) :=
  ' (train_dataloader, g) <-
      construct_train_dataloader m (train_batch_size a) (train_num a) g ;;
  optimizer <- optim_Adam (learning_rate a) ;;
  let st := {| self := m; gen := g; stdout := out; lr := learning_rate a;
               opt_steps := 0; last_epoch := 0 |} in
  epochs a train_dataloader (max_epoch a) 0 st.

(** [Test] *)
Definition Test (m : model E) (sample_num : nat) (random_seed : Z)
    (g : Rng E) (out : list line) : model E * Q * Rng E * list line :=
  let m := with_training E m false in
  let xg := sample_one_batch E m sample_num random_seed g in
  let y_hat := forward E m (fst xg) in
  let test_loss := ResidualLoss E m (fst xg) y_hat in
  (m, test_loss, snd xg, out ++ [TestReport test_loss]).

End Training.

(* ------------------------------------------------------------------ *)
(** ** The loss as the specification states it *)

(** The three boundary-condition regimes. *)
Inductive bc_kind : Type :=
| KindA
| KindB
| KindC.

Section SpecLoss.

(** The approximator and its first and second derivative. *)
Variables N N1 N2 : Q -> Q.

(** Mean over the batch of [(D2 - f(x, y_hat, D1))^2]. *)
Definition spec_interior_residual (rhs : tensor -> tensor -> tensor -> tensor)
    (x : tensor) : Q :=
  let f_hat := rhs x (map N x) (map N1 x) in
  fold_right (fun i acc => sq (N2 (nth i x 0) - nth i f_hat 0) + acc) 0
             (seq 0 (length x))
  / inject_Z (Z.of_nat (length x)).

Definition spec_boundary_term_1 (k : bc_kind) (w1 target_l lb0 : Q) : Q :=
  match k with
  | KindA => w1 * sq (N lb0 - target_l)
  | KindB => w1 * sq (N lb0 - target_l)
  | KindC => w1 * sq (N lb0 + N1 lb0 - target_l)
  end.

Definition spec_boundary_term_2 (k : bc_kind) (w2 target_u ub0 : Q) : Q :=
  match k with
  | KindA => w2 * sq (N ub0 - target_u)
  | KindB => w2 * sq (N1 ub0 - target_u)
  | KindC => w2 * sq (N1 ub0 - target_u)
  end.

End SpecLoss.

(** The regime the code runs for an integer tag: [1], [2], and the [else]
    branch. *)
Definition kind_of_tag (z : Z) : bc_kind :=
  if (z =? 1)%Z then KindA else if (z =? 2)%Z then KindB else KindC.

(* ------------------------------------------------------------------ *)
(** ** A small closed instance

    A network with one learnable number [p] that outputs [p] everywhere,
    samples that are all [1/2], the identity permutation, and plain
    gradient descent with the gradient taken as a central difference
    (exact for the quadratic losses that arise).  Used to run the
    definitions on concrete inputs. *)

Module Toy.

Definition env : Collaborators :=
  {| Params := Q;
     Rng := nat;
     init_params := fun _ g => (1, S g);
     fwd := fun p _ k => match k with O => p | S _ => 0 end;
     rff_error := fun _ _ _ _ _ => None;
     manual_seed := fun z => Z.to_nat z;
     torch_rand := fun g n => (repeat (1 # 2) n, S g);
     torch_rand_length := fun _ n => repeat_length (1 # 2) n;
     randperm := fun g n => (seq 0 n, S g);
     randperm_length := fun _ n => length_seq n 0;
     adam_step := fun lr0 loss p =>
                    Qred (p - lr0 * ((loss (p + 1) - loss (p - 1)) / 2));
     float_sqrt := fun q => q |}.

(** [y'' = 0] *)
Definition rhs (x y d : tensor) : tensor := map (fun _ => 0) x.

Definition build (bc : Z * Q * Q) (n_layers0 : Z) (lb0 ub0 : Q) : result (model env * nat) :=
  init env rhs lb0 ub0 bc (1, 1, 1) 8 n_layers0 false 25 0 1 None 0%nat.

Definition model_of (r : result (model env * nat)) (d : model env) : model env :=
  match r with
  | Ok (m, _) => m
  | Raise _ => d
  end.

Definition blank : model env :=
  {| f := rhs; lb := 0; ub := 0; BC := (0%Z, 0, 0); xl := []; xu := [];
     train_loss := []; validate_loss := []; L2_loss := [];
     lambdas := (0, 0, 0); n_hidden := 0; n_layers := 0;
     rff_para := (false, 0%Z, 0, 0); rff_B := None;
     input := Tanh; hiddens := Tanh; output := Tanh; net := Tanh;
     training := false; parameters := (0 : Params env) |}.

(** Dirichlet data [y(0) = 0], [y(1) = 0] on [[0, 1]]. *)
Definition pinn : model env := model_of (build (1%Z, 0, 0) 3 0 1) blank.

Definition pinn_kind (k : Z) : model env := model_of (build (k, 1, 2) 3 0 1) blank.

Definition args (n bs : nat) (lr0 : Q) (step : nat) (tol : Q) (epochs0 : nat)
    (l2 : bool) (show : bool) : train_args :=
  {| train_num := n; train_batch_size := bs; learning_rate := lr0;
     lr_step_size := step; min_lr := 0; lr_gamma := 1 # 2;
     abs_tolerance := tol; max_epoch := epochs0;
     compute_L2_loss := l2; true_sol := Some (map (fun _ => 0));
     display := show |}.

(** What is observed of a finished run. *)
Definition history_lengths (r : result (run env)) : option (nat * nat * nat) :=
  match r with
  | Ok st => Some (length (train_loss (self st)),
                   length (validate_loss (self st)),
                   length (L2_loss (self st)))
  | Raise _ => None
  end.

Definition scheduler_of (r : result (run env)) : option (Q * nat) :=
  match r with
  | Ok st => Some (lr st, last_epoch st)
  | Raise _ => None
  end.

Definition error_of {A : Type} (r : result A) : option exn :=
  match r with
  | Ok _ => None
  | Raise e => Some e
  end.

(** The loader [Train] builds for [pinn], and the state in which its
    first epoch starts. *)
Definition loader (n bs : nat) : DataLoader :=
  match construct_train_dataloader env pinn bs n 0%nat with
  | Ok (dl, _) => dl
  | Raise _ => {| dataset := []; batch_size := 0 |}
  end.

Definition start (a : train_args) : run env :=
  {| self := pinn; gen := 1%nat; stdout := []; lr := learning_rate a;
     opt_steps := 0; last_epoch := 0 |}.

Definition state_of (r : result (run env)) (d : run env) : run env :=
  match r with
  | Ok st => st
  | Raise _ => d
  end.

(** A run that does not learn (learning rate 0): every validation loss
    is the same. *)
Definition flat (epochs0 : nat) : train_args :=
  args 3 5 0 30 (1 # 10000) epochs0 false false.

(** A run that keeps learning: tolerance 0 is never met and every loss
    is a quarter of the one before. *)
Definition steady (epochs0 : nat) : train_args :=
  args 3 5 (1 # 8) 30 0 epochs0 false false.

(** Two samples in batches of one. *)
Definition two_batches (show : bool) : train_args :=
  args 2 1 (1 # 8) 30 0 3 false show.

(** A tolerance the first validation loss already meets. *)
Definition easy : train_args := args 3 5 (1 # 8) 30 10 5 false true.

(** The state the first epoch of a run on three samples leaves, before
    the stopping rule. *)
Definition first_epoch (a : train_args) : run env :=
  state_of (epoch_body env a (loader 3 5) 0 (start a)) (start a).

(** A batch of two interior points. *)
Definition two_points : tensor := [1 # 2; 1 # 3].

(** A run asked for the L2 error without an exact solution. *)
Definition unsolved : train_args :=
  {| train_num := 3; train_batch_size := 5; learning_rate := 1 # 8;
     lr_step_size := 30; min_lr := 0; lr_gamma := 1 # 2;
     abs_tolerance := 0; max_epoch := 2;
     compute_L2_loss := true; true_sol := None;
     display := false |}.


(** A run that does not learn and whose tolerance is never met. *)
Definition stalled (epochs0 : nat) : train_args :=
  args 3 5 0 30 0 epochs0 false false.

(** The network with Dirichlet data it meets: [y(0) = 1], [y(1) = 1]. *)
Definition solved : model env := with_BC env pinn (1%Z, 1, 1).

End Toy.

(* ------------------------------------------------------------------ *)
(** ** The loss *)

Section LossFacts.

Variable E : Collaborators.

Lemma value_forward (m : model E) (x : tensor) :
  value (forward E m x) = map (fun q => fwd E (parameters m) q 0%nat) x.
Proof. unfold value, forward. now rewrite map_map. Qed.

Lemma value_grad_forward (m : model E) (x : tensor) :
  value (autograd_grad (forward E m x))
  = map (fun q => fwd E (parameters m) q 1%nat) x.
Proof. unfold value, autograd_grad, forward. now rewrite !map_map. Qed.

Lemma value_grad_grad_forward (m : model E) (x : tensor) :
  value (autograd_grad (autograd_grad (forward E m x)))
  = map (fun q => fwd E (parameters m) q 2%nat) x.
Proof. unfold value, autograd_grad, forward. now rewrite !map_map. Qed.

(** The sum of squares the code takes over the zipped rows is the sum
    over the row indices. *)
Lemma sum_sq_rows (N2 : Q -> Q) :
  forall (x f_hat : tensor),
    length f_hat = length x ->
    tsum (tsq (tsub (map N2 x) f_hat))
    = fold_right (fun i acc => sq (N2 (nth i x 0) - nth i f_hat 0) + acc) 0
                 (seq 0 (length x)).
Proof.
  induction x as [|x0 xs IH]; intros [|h0 hs] Hlen; simpl in Hlen;
    try discriminate; [reflexivity|].
  injection Hlen as Hlen.
  change (length (x0 :: xs)) with (S (length xs)).
  rewrite <- cons_seq, <- seq_shift.
  change (tsum (tsq (tsub (map N2 (x0 :: xs)) (h0 :: hs))))
    with (sq (N2 x0 - h0) + tsum (tsq (tsub (map N2 xs) hs))).
  rewrite (IH hs Hlen).
  cbn [fold_right nth]. f_equal.
  generalize (seq 0 (length xs)) as l.
  induction l as [|i l IHl]; [reflexivity|].
  cbn [map fold_right nth]. now rewrite IHl.
Qed.

Lemma interior_term (m : model E) (x : tensor) (y_hat : tracked) :
  Lp_of (ResidualLoss_terms E m x y_hat)
  = tsum (tsq (tsub (value (autograd_grad (autograd_grad y_hat)))
                    (f m x (value y_hat) (value (autograd_grad y_hat)))))
    / inject_Z (Z.of_nat (length x)).
Proof.
  unfold ResidualLoss_terms.
  destruct (BC0 (BC m) =? 1)%Z; [reflexivity|].
  destruct (BC0 (BC m) =? 2)%Z; reflexivity.
Qed.

Lemma boundary_terms (m : model E) (x : tensor) (y_hat : tracked) :
  xl m = [lb m] -> xu m = [ub m] ->
  let N := fun q => fwd E (parameters m) q 0%nat in
  let N1 := fun q => fwd E (parameters m) q 1%nat in
  let k := kind_of_tag (BC0 (BC m)) in
  Lb1_of (ResidualLoss_terms E m x y_hat)
  = spec_boundary_term_1 N N1 k (lambdas1 (lambdas m)) (BC1 (BC m)) (lb m)
  /\ Lb2_of (ResidualLoss_terms E m x y_hat)
     = spec_boundary_term_2 N N1 k (lambdas2 (lambdas m)) (BC2 (BC m)) (ub m).
Proof.
  intros Hl Hu N N1 k. subst k.
  unfold ResidualLoss_terms, kind_of_tag, forward. rewrite Hl, Hu.
  destruct (BC0 (BC m) =? 1)%Z; [split; reflexivity|].
  destruct (BC0 (BC m) =? 2)%Z; split; reflexivity.
Qed.

(** C1.  For predictions [y_hat = forward(x)] the value returned by
    [ResidualLoss] is the mean over the batch of
    [(D2 - f(x, y_hat, D1))^2] plus the two boundary terms; the boundary
    terms carry [lambdas[1]] and [lambdas[2]], and no entry of [lambdas]
    multiplies the interior term: [lambdas[0]] can be replaced by any
    value without changing the loss. *)
Theorem ResidualLoss_total (m : model E) (x : tensor) :
  xl m = [lb m] -> xu m = [ub m] ->
  length (f m x (value (forward E m x))
                (value (autograd_grad (forward E m x)))) = length x ->
  let N := fun q => fwd E (parameters m) q 0%nat in
  let N1 := fun q => fwd E (parameters m) q 1%nat in
  let N2 := fun q => fwd E (parameters m) q 2%nat in
  let k := kind_of_tag (BC0 (BC m)) in
  ResidualLoss E m x (forward E m x)
  = spec_interior_residual N N1 N2 (f m) x
    + spec_boundary_term_1 N N1 k (lambdas1 (lambdas m)) (BC1 (BC m)) (lb m)
    + spec_boundary_term_2 N N1 k (lambdas2 (lambdas m)) (BC2 (BC m)) (ub m)
  /\ forall l0 : Q,
      let m' := with_lambdas E m (l0, lambdas1 (lambdas m), lambdas2 (lambdas m)) in
      ResidualLoss E m' x (forward E m' x) = ResidualLoss E m x (forward E m x).
Proof.
  intros Hl Hu Hlen N N1 N2 k. split.
  - unfold ResidualLoss.
    destruct (boundary_terms m x (forward E m x) Hl Hu) as [H1 H2].
    rewrite H1, H2, interior_term. fold N N1 k.
    f_equal. f_equal.
    unfold spec_interior_residual.
    rewrite value_forward, value_grad_forward, value_grad_grad_forward in *.
    fold N N1 N2 in Hlen |- *.
    now rewrite (sum_sq_rows N2 x _ Hlen).
  - intros l0 m'. subst m'. unfold ResidualLoss, ResidualLoss_terms, forward.
    cbn [with_lambdas f BC xl xu lambdas parameters lambdas1 lambdas2 fst snd].
    reflexivity.
Qed.

(** C2.  The two boundary terms by case on [BC[0]]: kind 1 penalises
    the value at both ends, kind 2 the value at [lb] and the derivative
    at [ub], kind 3 value plus derivative at [lb] and the derivative at
    [ub]; every tag other than 1 and 2 takes the kind-3 branch. *)
Theorem boundary_terms_by_kind (m : model E) (x : tensor) (y_hat : tracked) :
  xl m = [lb m] -> xu m = [ub m] ->
  let N := fun q => fwd E (parameters m) q 0%nat in
  let N1 := fun q => fwd E (parameters m) q 1%nat in
  let w1 := lambdas1 (lambdas m) in
  let w2 := lambdas2 (lambdas m) in
  let target_l := BC1 (BC m) in
  let target_u := BC2 (BC m) in
  let t := ResidualLoss_terms E m x y_hat in
  (BC0 (BC m) = 1%Z ->
     Lb1_of t = w1 * sq (N (lb m) - target_l)
     /\ Lb2_of t = w2 * sq (N (ub m) - target_u))
  /\ (BC0 (BC m) = 2%Z ->
     Lb1_of t = w1 * sq (N (lb m) - target_l)
     /\ Lb2_of t = w2 * sq (N1 (ub m) - target_u))
  /\ (BC0 (BC m) = 3%Z ->
     Lb1_of t = w1 * sq (N (lb m) + N1 (lb m) - target_l)
     /\ Lb2_of t = w2 * sq (N1 (ub m) - target_u))
  /\ (BC0 (BC m) <> 1%Z -> BC0 (BC m) <> 2%Z ->
     Lb1_of t = w1 * sq (N (lb m) + N1 (lb m) - target_l)
     /\ Lb2_of t = w2 * sq (N1 (ub m) - target_u)).
Proof.
  intros Hl Hu N N1 w1 w2 target_l target_u t.
  destruct (boundary_terms m x y_hat Hl Hu) as [H1 H2].
  fold t N N1 w1 w2 target_l target_u in H1, H2.
  unfold kind_of_tag in H1, H2.
  repeat split; intros; rewrite ?H1, ?H2;
    try (match goal with H : BC0 _ = _ |- _ => rewrite H end; reflexivity);
    destruct (Z.eqb_spec (BC0 (BC m)) 1); try contradiction;
    destruct (Z.eqb_spec (BC0 (BC m)) 2); try contradiction; reflexivity.
Qed.

End LossFacts.

(* ------------------------------------------------------------------ *)
(** ** The constructor *)

Lemma bind_Ok {A B : Type} (c : result A) (k : A -> result B) (b : B) :
  bind c k = Ok b -> exists a, c = Ok a /\ k a = Ok b.
Proof. destruct c as [a|e]; [eauto | discriminate]. Qed.

Section ConstructorFacts.

Variable E : Collaborators.

Lemma map_const_seq {A : Type} (c : A) (n s : nat) :
  map (fun _ => c) (seq s n) = repeat c n.
Proof.
  revert s. induction n as [|n IH]; intros s; [reflexivity|].
  cbn [seq map repeat]. now rewrite IH.
Qed.

Lemma nn_Linear_Ok (n_in n_out : Z) (l : layer) :
  nn_Linear n_in n_out = Ok l ->
  (0 <= n_in)%Z /\ (0 <= n_out)%Z /\ l = Linear n_in n_out.
Proof.
  unfold nn_Linear. destruct (Z.ltb_spec n_in 0) as [|H1]; [discriminate|].
  destruct (Z.ltb_spec n_out 0) as [|H2]; [discriminate|].
  cbn. intros H. injection H as <-. repeat split; assumption.
Qed.

Lemma nn_Linear_sizes (n_in n_out : Z) :
  (0 <= n_in)%Z -> (0 <= n_out)%Z -> nn_Linear n_in n_out = Ok (Linear n_in n_out).
Proof.
  intros H1 H2. unfold nn_Linear.
  destruct (Z.ltb_spec n_in 0); [lia|]. destruct (Z.ltb_spec n_out 0); [lia|].
  reflexivity.
Qed.

(** The hidden blocks, once the width is known not to be negative. *)
Lemma hidden_blocks (h : Z) (k s : nat) :
  (0 <= h)%Z ->
  result_for (fun _ : nat => l <- nn_Linear h h ;; Ok (Sequential [l; Tanh]))
             (seq s k)
  = Ok (repeat (Sequential [Linear h h; Tanh]) k).
Proof.
  intros Hh. rewrite (nn_Linear_sizes h h Hh Hh). cbn [bind].
  revert s. induction k as [|k IH]; intros s; [reflexivity|].
  cbn [seq result_for repeat]. now rewrite IH.
Qed.

(** What [__init__] returns when it returns. *)
Lemma init_fields (f0 : tensor -> tensor -> tensor -> tensor) (lb0 ub0 : Q)
    (bc : Z * Q * Q) (lam : Q * Q * Q) (h n : Z) (set_rff : bool)
    (rff_num : Z) (u std : Q) (B : option tensor) (g : Rng E)
    (m : model E) (g' : Rng E) :
  init E f0 lb0 ub0 bc lam h n set_rff rff_num u std B g = Ok (m, g') ->
  f m = f0 /\ lb m = lb0 /\ ub m = ub0 /\ BC m = bc /\ lambdas m = lam
  /\ xl m = [lb0] /\ xu m = [ub0]
  /\ n_hidden m = h /\ n_layers m = n
  /\ hiddens m = Sequential (repeat (Sequential [Linear h h; Tanh])
                                    (Z.to_nat (n - 3)))
  /\ train_loss m = [] /\ validate_loss m = [] /\ L2_loss m = []
  /\ (0 <= h)%Z.
Proof.
  unfold init. intros H.
  apply bind_Ok in H. destruct H as (input0 & Hin & H).
  assert (Hh : (0 <= h)%Z).
  { destruct set_rff.
    - apply bind_Ok in Hin. destruct Hin as (r & _ & Hin).
      apply bind_Ok in Hin. destruct Hin as (l & Hl & _).
      now apply nn_Linear_Ok in Hl.
    - apply bind_Ok in Hin. destruct Hin as (l & Hl & _).
      now apply nn_Linear_Ok in Hl. }
  unfold range_len in H. rewrite (hidden_blocks h _ 0 Hh) in H. cbn [bind] in H.
  apply bind_Ok in H. destruct H as (output0 & _ & H).
  injection H as <- _. cbn. repeat split. exact Hh.
Qed.

(** When the layers can be built, [__init__] returns. *)
Lemma init_returns (f0 : tensor -> tensor -> tensor -> tensor) (lb0 ub0 : Q)
    (bc : Z * Q * Q) (lam : Q * Q * Q) (h n : Z) (set_rff : bool)
    (rff_num : Z) (u std : Q) (B : option tensor) (g : Rng E) :
  (0 <= h)%Z ->
  (set_rff = true ->
   rff_error E 1 rff_num u std B = None /\ (0 <= rff_num)%Z) ->
  exists m g',
    init E f0 lb0 ub0 bc lam h n set_rff rff_num u std B g = Ok (m, g').
Proof.
  intros Hh Hrff. unfold init, range_len.
  rewrite (hidden_blocks h _ 0 Hh).
  rewrite (nn_Linear_sizes h 1 Hh ltac:(lia)).
  destruct set_rff.
  - destruct (Hrff eq_refl) as [-> Hnum].
    rewrite (nn_Linear_sizes (2 * rff_num) h ltac:(lia) Hh).
    cbn [bind]. now do 2 eexists.
  - rewrite (nn_Linear_sizes 1 h ltac:(lia) Hh).
    cbn [bind]. now do 2 eexists.
Qed.

(** C9 (as the code has it).  The constructor checks neither the depth
    nor the bounds: whenever its layers can be built (a width that is not
    negative, and with the feature encoder an encoder that builds and a
    number of features that is not negative), for every depth, also below
    3, and for every pair of bounds, also with [lb >= ub], it returns a
    model that stores the bounds and the depth as given and has
    [max (n_layers - 3) 0] hidden blocks. *)
Theorem init_never_raises (f0 : tensor -> tensor -> tensor -> tensor)
    (lb0 ub0 : Q) (bc : Z * Q * Q) (lam : Q * Q * Q) (h n : Z)
    (set_rff : bool) (rff_num : Z) (u std : Q) (B : option tensor)
    (g : Rng E) :
  (0 <= h)%Z ->
  (set_rff = true ->
   rff_error E 1 rff_num u std B = None /\ (0 <= rff_num)%Z) ->
  exists m g' blocks,
    init E f0 lb0 ub0 bc lam h n set_rff rff_num u std B g = Ok (m, g')
    /\ lb m = lb0 /\ ub m = ub0 /\ n_layers m = n
    /\ hiddens m = Sequential blocks
    /\ Z.of_nat (length blocks) = Z.max (n - 3) 0.
Proof.
  intros Hh Hrff.
  destruct (init_returns f0 lb0 ub0 bc lam h n set_rff rff_num u std B g Hh Hrff)
    as (m & g' & Hinit).
  destruct (init_fields _ _ _ _ _ _ _ _ _ _ _ _ _ _ _ Hinit)
    as (_ & Hlb & Hub & _ & _ & _ & _ & _ & Hn & Hhid & _).
  exists m, g', (repeat (Sequential [Linear h h; Tanh]) (Z.to_nat (n - 3))).
  repeat split; try assumption.
  rewrite repeat_length. lia.
Qed.

End ConstructorFacts.

(** C9 (as stated) fails: a depth of 2 with [lb = 1 >= ub = 0] is
    accepted, and the constructor returns. *)
Lemma init_shallow_reversed_accepted :
  (2 < 3)%Z /\ 0 <= 1
  /\ Toy.build (1%Z, 0, 0) 2 1 0 <> Raise ConfigurationError
  /\ Toy.error_of (Toy.build (1%Z, 0, 0) 2 1 0) = None.
Proof.
  split; [reflexivity|]. split; [discriminate|].
  split; [vm_compute; discriminate|reflexivity].
Qed.

(* ------------------------------------------------------------------ *)
(** ** The training loop *)

Lemma py_last_app (l : list Q) (v : Q) : py_last (l ++ [v]) = Ok v.
Proof. unfold py_last. now rewrite rev_app_distr. Qed.

Lemma Qlt_bool_iff (x y : Q) : Qlt_bool x y = true <-> x < y.
Proof.
  unfold Qlt_bool. rewrite negb_true_iff.
  destruct (Qle_bool y x) eqn:H.
  - apply Qle_bool_iff in H. split; [discriminate|].
    intros Hlt. exfalso. apply (Qlt_not_le _ _ Hlt H).
  - split; [intros _|reflexivity].
    apply Qnot_le_lt. intros Hle. apply Qle_bool_iff in Hle. congruence.
Qed.

(** [round(z / 3)] has no ties: it is the floor of [(z + 1) / 3]. *)
Lemma py_round_third (z : Z) : py_round (inject_Z z / 3) = ((z + 1) / 3)%Z.
Proof.
  unfold py_round.
  assert (Hq : Qfloor (inject_Z z / 3) = (z / 3)%Z).
  { unfold Qfloor, Qdiv, Qmult, Qinv, inject_Z. cbn. now rewrite Z.mul_1_r. }
  rewrite Hq.
  unfold Qcompare, Qminus, Qplus, Qopp, Qdiv, Qmult, Qinv, inject_Z.
  cbn [Qnum Qden Pos.mul Z.opp].
  match goal with
  | |- context [Z.compare ?x ?y] => destruct (Z.compare_spec x y) as [H|H|H]
  end; change (Z.pos (1 + 2)) with 3%Z in H;
    Z.div_mod_to_equations; lia.
Qed.

Lemma validate_num_closed (a : train_args) :
  Z.to_nat (validate_num a) = ((train_num a + 1) / 3)%nat.
Proof.
  unfold validate_num. rewrite py_round_third.
  change 1%Z with (Z.of_nat 1). change 3%Z with (Z.of_nat 3).
  now rewrite <- Nat2Z.inj_add, <- Nat2Z.inj_div, Nat2Z.id.
Qed.

Section TrainingFacts.

Variable E : Collaborators.
Variable a : train_args.
Variable dl : DataLoader.

Lemma books_kept_refl (st : run E) : books_kept E st st.
Proof. repeat split. Qed.

Lemma books_kept_trans (s1 s2 s3 : run E) :
  books_kept E s1 s2 -> books_kept E s2 s3 -> books_kept E s1 s3.
Proof.
  unfold books_kept. intros (A1 & A2 & A3 & A4 & A5 & A6) (B1 & B2 & B3 & B4 & B5 & B6).
  repeat split; congruence.
Qed.

Lemma train_batches_keeps (xs : list tensor) :
  forall epoch i st acc st' acc',
    train_batches E a dl epoch i xs st acc = Ok (st', acc') ->
    books_kept E st st'
    /\ opt_steps st' = (opt_steps st + length xs)%nat.
Proof.
  induction xs as [|x rest IH]; intros epoch i st acc st' acc' H.
  - cbn in H. injection H as <- <-. split; [apply books_kept_refl|].
    cbn. lia.
  - cbn [train_batches] in H.
    apply bind_Ok in H. destruct H as (st1 & Hshow & Hrest).
    apply IH in Hrest. destruct Hrest as [Hk Hn].
    assert (Hst1 : books_kept E st st1
                   /\ opt_steps st1 = S (opt_steps st)).
    { destruct (display a).
      - apply bind_Ok in Hshow. destruct Hshow as (shown & _ & Hp).
        injection Hp as <-. destruct shown; split; repeat split.
      - injection Hshow as <-. split; repeat split. }
    destruct Hst1 as [Hk1 Hn1]. split.
    + eapply books_kept_trans; eassumption.
    + rewrite Hn, Hn1. cbn [length]. lia.
Qed.

Lemma epoch_body_stages (epoch : nat) (st : run E) :
  epoch_body E a dl epoch st
  = (' (st', train_loss0) <-
       train_batches E a dl epoch 0 (epoch_batches E dl st)
                     (epoch_start E a dl epoch st) 0 ;;
     epoch_end E a dl epoch st' train_loss0).
Proof.
  unfold epoch_body, epoch_start, epoch_batches, epoch_end.
  destruct (display a); reflexivity.
Qed.

Lemma epoch_start_keeps (epoch : nat) (st : run E) :
  train_loss (self (epoch_start E a dl epoch st)) = train_loss (self st)
  /\ validate_loss (self (epoch_start E a dl epoch st)) = validate_loss (self st)
  /\ L2_loss (self (epoch_start E a dl epoch st)) = L2_loss (self st)
  /\ lr (epoch_start E a dl epoch st) = lr st
  /\ last_epoch (epoch_start E a dl epoch st) = last_epoch st
  /\ opt_steps (epoch_start E a dl epoch st) = opt_steps st
  /\ parameters (self (epoch_start E a dl epoch st)) = parameters (self st).
Proof. unfold epoch_start. destruct (display a); repeat split. Qed.

Lemma ResidualLoss_eval_mode (m : model E) (x : tensor) :
  ResidualLoss E (with_training E m false) x
               (forward E (with_training E m false) x)
  = ResidualLoss E m x (forward E m x).
Proof. reflexivity. Qed.

Lemma L2_error_model (m m' : model E) (sol : option (tensor -> tensor)) (e : Q) :
  L2_error E m sol = Ok (m', e) -> m' = with_training E m false.
Proof.
  unfold L2_error. destruct sol as [s|]; [|discriminate].
  set (v := float_sqrt E _). clearbody v.
  intros H. now injection H as <- _.
Qed.

(** What the end of an epoch records. *)
Lemma epoch_end_records (epoch : nat) (st st1 : run E) (train_loss0 : Q) :
  epoch_end E a dl epoch st train_loss0 = Ok st1 ->
  let xv := fst (sample_one_batch E (self st) (Z.to_nat (validate_num a))
                                  (-1) (gen st)) in
  exists tr,
    py_truediv train_loss0 (n_train_batches dl) = Ok tr
    /\ train_loss (self st1) = train_loss (self st) ++ [tr]
    /\ validate_loss (self st1)
       = validate_loss (self st)
         ++ [ResidualLoss E (self st) xv (forward E (self st) xv)]
    /\ (if compute_L2_loss a
        then exists e, L2_loss (self st1) = L2_loss (self st) ++ [e]
        else L2_loss (self st1) = L2_loss (self st))
    /\ lr st1 = lr st /\ last_epoch st1 = last_epoch st
    /\ opt_steps st1 = opt_steps st
    /\ parameters (self st1) = parameters (self st).
Proof.
  intros H xv. unfold epoch_end in H.
  apply bind_Ok in H. destruct H as (tr & Htr & H).
  exists tr. split; [exact Htr|].
  apply bind_Ok in H. destruct H as ([st2 l2] & HL2 & H).
  injection H as <-.
  destruct (compute_L2_loss a).
  - apply bind_Ok in HL2. destruct HL2 as ([m e] & Hm & HL2).
    injection HL2 as <- <-.
    apply L2_error_model in Hm. subst m.
    destruct (display a); repeat split; eexists; reflexivity.
  - injection HL2 as <- <-.
    destruct (display a); repeat split.
Qed.

(** One epoch, up to the stopping rule: the mini-batch steps, then one
    entry appended to each history. *)
Lemma epoch_body_records (epoch : nat) (st st1 : run E) :
  epoch_body E a dl epoch st = Ok st1 ->
  exists st_tr acc tr,
    train_batches E a dl epoch 0 (epoch_batches E dl st)
                  (epoch_start E a dl epoch st) 0 = Ok (st_tr, acc)
    /\ epoch_end E a dl epoch st_tr acc = Ok st1
    /\ py_truediv acc (n_train_batches dl) = Ok tr
    /\ train_loss (self st1) = train_loss (self st) ++ [tr]
    /\ (exists va, validate_loss (self st1) = validate_loss (self st) ++ [va])
    /\ (if compute_L2_loss a
        then exists e, L2_loss (self st1) = L2_loss (self st) ++ [e]
        else L2_loss (self st1) = L2_loss (self st))
    /\ lr st1 = lr st /\ last_epoch st1 = last_epoch st
    /\ opt_steps st1 = (opt_steps st + length (epoch_batches E dl st))%nat.
Proof.
  intros H. rewrite epoch_body_stages in H.
  apply bind_Ok in H. destruct H as ([st_tr acc] & Htr & Hend).
  destruct (train_batches_keeps _ _ _ _ _ _ _ Htr)
    as ((K1 & K2 & K3 & _ & K5 & K6) & Kn).
  destruct (epoch_start_keeps epoch st) as (S1 & S2 & S3 & S4 & S5 & S6 & _).
  destruct (epoch_end_records _ _ _ _ Hend)
    as (tr & Hdiv & R1 & R2 & R3 & R4 & R5 & R6 & _).
  exists st_tr, acc, tr.
  split; [exact Htr|]. split; [exact Hend|]. split; [exact Hdiv|].
  split; [now rewrite R1, K1, S1|].
  split; [eexists; rewrite R2, K2, S2; reflexivity|].
  split.
  { destruct (compute_L2_loss a).
    - destruct R3 as [e He]. exists e. now rewrite He, K3, S3.
    - now rewrite R3, K3, S3. }
  split; [now rewrite R4, K5, S4|].
  split; [now rewrite R5, K6, S5|].
  now rewrite R6, Kn, S6.
Qed.

Lemma scheduler_step_keeps (st st' : run E) :
  scheduler_step E (lr_step_size a) (lr_gamma a) st = Ok st' ->
  self st' = self st /\ gen st' = gen st /\ stdout st' = stdout st
  /\ opt_steps st' = opt_steps st
  /\ last_epoch st' = S (last_epoch st).
Proof.
  unfold scheduler_step. intros H.
  apply bind_Ok in H. destruct H as (r & _ & H). injection H as <-.
  repeat split.
Qed.

(** The stopping rule never touches the model. *)
Lemma stopping_rule_self (st st' : run E) (stop : bool) :
  stopping_rule E a st = Ok (stop, st') -> self st' = self st.
Proof.
  unfold stopping_rule. intros H.
  apply bind_Ok in H. destruct H as (v & _ & H).
  destruct (Qlt_bool v (abs_tolerance a)); [now injection H as _ <-|].
  destruct (26 <? length (validate_loss (self st)))%nat.
  - destruct (plateau (validate_loss (self st))); now injection H as _ <-.
  - destruct (Qlt_bool (min_lr a) (lr st)); [|now injection H as _ <-].
    apply bind_Ok in H. destruct H as (st2 & Hs & H). injection H as _ <-.
    now apply scheduler_step_keeps in Hs.
Qed.

Lemma Qlt_bool_false (x y : Q) : Qlt_bool x y = false <-> ~ x < y.
Proof.
  rewrite <- Qlt_bool_iff. destruct (Qlt_bool x y); split; intros H;
    try reflexivity; try discriminate; try (intros H'; discriminate).
  exfalso. now apply H.
Qed.

(** C5.  When the validation loss recorded by an epoch is strictly
    below [abs_tolerance], the loop ends with the state that epoch
    left: the stopping rule breaks on its first test, before the plateau
    test and before the scheduler, so the learning rate and the
    scheduler's counter are those the epoch started with and no further
    epoch runs. *)
Theorem convergence_stop_first (remaining epoch : nat) (st st1 : run E) (v : Q) :
  epoch_body E a dl epoch st = Ok st1 ->
  py_last (validate_loss (self st1)) = Ok v ->
  v < abs_tolerance a ->
  stopping_rule E a st1 = Ok (true, st1)
  /\ epochs E a dl (S remaining) epoch st = Ok st1
  /\ lr st1 = lr st /\ last_epoch st1 = last_epoch st.
Proof.
  intros Hbody Hlast Hlt.
  assert (Hstop : stopping_rule E a st1 = Ok (true, st1)).
  { unfold stopping_rule. rewrite Hlast. cbn [bind].
    apply Qlt_bool_iff in Hlt. now rewrite Hlt. }
  split; [exact Hstop|]. split.
  - cbn [epochs]. rewrite Hbody. cbn [bind]. rewrite Hstop. reflexivity.
  - destruct (epoch_body_records _ _ _ Hbody)
      as (_ & _ & _ & _ & _ & _ & _ & _ & _ & Hlr & Hle & _).
    now split.
Qed.

(** Past 26 recorded validation losses, a window whose 25 relative
    changes are all below [1e-4] ends the loop. *)
Lemma plateau_stop_past_26 (remaining epoch : nat) (st st1 : run E) :
  epoch_body E a dl epoch st = Ok st1 ->
  (26 < length (validate_loss (self st1)))%nat ->
  plateau (validate_loss (self st1)) = true ->
  stopping_rule E a st1 = Ok (true, st1)
  /\ epochs E a dl (S remaining) epoch st = Ok st1.
Proof.
  intros Hbody Hlen Hpl.
  assert (Hstop : stopping_rule E a st1 = Ok (true, st1)).
  { unfold stopping_rule.
    destruct (epoch_body_records _ _ _ Hbody)
      as (_ & _ & _ & _ & _ & _ & _ & (va & Hva) & _).
    rewrite Hva at 1. rewrite py_last_app. cbn [bind].
    destruct (Qlt_bool va (abs_tolerance a)); [reflexivity|].
    apply Nat.ltb_lt in Hlen. now rewrite Hlen, Hpl. }
  split; [exact Hstop|].
  cbn [epochs]. rewrite Hbody. cbn [bind]. now rewrite Hstop.
Qed.

(** With at most 26 recorded validation losses the plateau test is not
    run at all. *)
Lemma no_plateau_test_up_to_26 (st : run E) (v : Q) :
  py_last (validate_loss (self st)) = Ok v ->
  ~ v < abs_tolerance a ->
  (length (validate_loss (self st)) <= 26)%nat ->
  stopping_rule E a st
  = if Qlt_bool (min_lr a) (lr st)
    then st' <- scheduler_step E (lr_step_size a) (lr_gamma a) st ;; Ok (false, st')
    else Ok (false, st).
Proof.
  intros Hlast Hnlt Hlen. unfold stopping_rule. rewrite Hlast. cbn [bind].
  apply Qlt_bool_false in Hnlt. rewrite Hnlt.
  apply Nat.ltb_ge in Hlen. now rewrite Hlen.
Qed.

(** Past 26 recorded validation losses the scheduler is out of reach:
    whatever the learning rate, the stopping rule returns the state
    unchanged. *)
Lemma no_scheduler_past_26 (st st' : run E) (stop : bool) :
  (26 < length (validate_loss (self st)))%nat ->
  stopping_rule E a st = Ok (stop, st') -> st' = st.
Proof.
  intros Hlen H. unfold stopping_rule in H.
  apply bind_Ok in H. destruct H as (v & _ & H).
  destruct (Qlt_bool v (abs_tolerance a)); [now injection H as _ <-|].
  apply Nat.ltb_lt in Hlen. rewrite Hlen in H.
  destruct (plateau (validate_loss (self st))); now injection H as _ <-.
Qed.

(** At or below [min_lr] the scheduler is never stepped again. *)
Lemma lr_floor_holds (remaining : nat) :
  forall epoch st st',
    lr st <= min_lr a ->
    epochs E a dl remaining epoch st = Ok st' ->
    lr st' = lr st /\ last_epoch st' = last_epoch st.
Proof.
  induction remaining as [|r IH]; intros epoch st st' Hle H.
  - cbn in H. injection H as <-. now split.
  - cbn [epochs] in H.
    apply bind_Ok in H. destruct H as (st1 & Hbody & H).
    apply bind_Ok in H. destruct H as ([stop st2] & Hstop & H).
    destruct (epoch_body_records _ _ _ Hbody)
      as (_ & _ & _ & _ & _ & _ & _ & _ & _ & Hlr & Hlast & _).
    assert (Hst2 : st2 = st1).
    { unfold stopping_rule in Hstop.
      apply bind_Ok in Hstop. destruct Hstop as (v & _ & Hstop).
      destruct (Qlt_bool v (abs_tolerance a)); [now injection Hstop as _ <-|].
      destruct (26 <? length (validate_loss (self st1)))%nat.
      - destruct (plateau (validate_loss (self st1))); now injection Hstop as _ <-.
      - assert (Hf : Qlt_bool (min_lr a) (lr st1) = false).
        { apply Qlt_bool_false. rewrite Hlr. now apply Qle_not_lt. }
        rewrite Hf in Hstop. now injection Hstop as _ <-. }
    subst st2. destruct stop.
    + injection H as <-. now split.
    + apply IH in H; [|now rewrite Hlr].
      destruct H as [H1 H2]. split; congruence.
Qed.

Lemma sample_one_batch_length (m : model E) (n : nat) (g : Rng E) :
  length (fst (sample_one_batch E m n (-1) g)) = n.
Proof.
  unfold sample_one_batch. cbn [fst Z.ltb Z.compare].
  now rewrite length_map, torch_rand_length.
Qed.

(** C6 (as the code has it).  At the end of every epoch a batch of
    [round(train_num / 3)] fresh samples is drawn, that is the floor of
    [(train_num + 1) / 3]; its loss is computed by [ResidualLoss] on the
    parameters the mini-batch steps left, and that loss is the entry
    appended to [validate_loss]; validating changes neither the
    parameters nor the optimizer's step count. *)
Theorem validation_batch_rounded (epoch : nat) (st st1 : run E) :
  epoch_body E a dl epoch st = Ok st1 ->
  exists st_tr acc,
    train_batches E a dl epoch 0 (epoch_batches E dl st)
                  (epoch_start E a dl epoch st) 0 = Ok (st_tr, acc)
    /\ let n := Z.to_nat (py_round (inject_Z (Z.of_nat (train_num a)) / 3)) in
       let xv := fst (sample_one_batch E (self st_tr) n (-1) (gen st_tr)) in
       length xv = n
       /\ validate_loss (self st1)
          = validate_loss (self st)
            ++ [ResidualLoss E (self st_tr) xv (forward E (self st_tr) xv)]
       /\ parameters (self st1) = parameters (self st_tr)
       /\ opt_steps st1 = opt_steps st_tr
       /\ n = ((train_num a + 1) / 3)%nat.
Proof.
  intros H.
  destruct (epoch_body_records _ _ _ H) as (st_tr & acc & tr & Htr & Hend & _).
  exists st_tr, acc. split; [exact Htr|]. intros n xv.
  destruct (train_batches_keeps _ _ _ _ _ _ _ Htr) as ((_ & K2 & _) & _).
  destruct (epoch_start_keeps epoch st) as (_ & S2 & _).
  destruct (epoch_end_records _ _ _ _ Hend)
    as (tr' & _ & _ & R2 & _ & _ & _ & R6 & R7).
  split; [apply sample_one_batch_length|].
  split; [rewrite R2, K2, S2; reflexivity|].
  split; [exact R7|]. split; [exact R6|].
  apply validate_num_closed.
Qed.

Lemma epochs_append (remaining : nat) :
  forall epoch st st',
    epochs E a dl remaining epoch st = Ok st' ->
    exists tr va l2,
      train_loss (self st') = train_loss (self st) ++ tr
      /\ validate_loss (self st') = validate_loss (self st) ++ va
      /\ L2_loss (self st') = L2_loss (self st) ++ l2
      /\ length va = length tr
      /\ length l2 = (if compute_L2_loss a then length tr else 0)%nat
      /\ (length tr <= remaining)%nat.
Proof.
  induction remaining as [|r IH]; intros epoch st st' H.
  - cbn in H. injection H as <-. exists [], [], [].
    rewrite !app_nil_r. repeat split; cbn; try lia.
    now destruct (compute_L2_loss a).
  - cbn [epochs] in H.
    apply bind_Ok in H. destruct H as (st1 & Hbody & H).
    apply bind_Ok in H. destruct H as ([stop st2] & Hstop & H).
    apply stopping_rule_self in Hstop.
    destruct (epoch_body_records _ _ _ Hbody)
      as (_ & _ & tr & _ & _ & _ & Ht & (va & Hv) & HL & _).
    assert (HL' : exists l2, L2_loss (self st1) = L2_loss (self st) ++ l2
                             /\ length l2 = (if compute_L2_loss a then 1 else 0)%nat).
    { destruct (compute_L2_loss a).
      - destruct HL as [e He]. now exists [e].
      - exists []. now rewrite app_nil_r. }
    destruct HL' as (l2 & Hl & Hl2).
    destruct stop.
    + injection H as <-. rewrite Hstop.
      exists [tr], [va], l2. repeat split; try assumption; cbn; lia.
    + apply IH in H. destruct H as (tr' & va' & l2' & A1 & A2 & A3 & A4 & A5 & A6).
      rewrite Hstop in A1, A2, A3.
      exists (tr :: tr'), (va :: va'), (l2 ++ l2').
      rewrite A1, A2, A3, Ht, Hv, Hl, <- !app_assoc.
      repeat split; cbn [length app]; try lia.
      rewrite length_app, Hl2, A5. now destruct (compute_L2_loss a).
Qed.

End TrainingFacts.

(* ------------------------------------------------------------------ *)
(** ** Whole runs *)

Section RunFacts.

Variable E : Collaborators.

(** C10.  The three histories are empty when the constructor returns;
    an epoch that completes appends exactly one entry to [train_loss]
    and one to [validate_loss], and one to [L2_loss] exactly when
    [compute_L2_loss] is set; the stopping rule leaves the model
    untouched; so a run of [Train] that returns has only appended to
    what was recorded before: the same number of entries, at most
    [max_epoch], to the first two histories, and as many or none to
    the third. *)
Theorem histories_append_only :
  (forall f0 lb0 ub0 bc lam h n set_rff rff_num u std B g,
      (forall m g',
          init E f0 lb0 ub0 bc lam h n set_rff rff_num u std B g = Ok (m, g') ->
          train_loss m = [] /\ validate_loss m = [] /\ L2_loss m = [])
      /\ ((0 <= h)%Z ->
          (set_rff = true ->
           rff_error E 1 rff_num u std B = None /\ (0 <= rff_num)%Z) ->
          exists m g',
            init E f0 lb0 ub0 bc lam h n set_rff rff_num u std B g = Ok (m, g')
            /\ train_loss m = [] /\ validate_loss m = [] /\ L2_loss m = []))
  /\ (forall a dl epoch st st1,
        epoch_body E a dl epoch st = Ok st1 ->
        exists tr va l2,
          train_loss (self st1) = train_loss (self st) ++ [tr]
          /\ validate_loss (self st1) = validate_loss (self st) ++ [va]
          /\ L2_loss (self st1) = L2_loss (self st) ++ l2
          /\ length l2 = (if compute_L2_loss a then 1 else 0)%nat)
  /\ (forall a st st' stop,
        stopping_rule E a st = Ok (stop, st') -> self st' = self st)
  /\ (forall a m g out st',
        Train E a m g out = Ok st' ->
        exists tr va l2,
          train_loss (self st') = train_loss m ++ tr
          /\ validate_loss (self st') = validate_loss m ++ va
          /\ L2_loss (self st') = L2_loss m ++ l2
          /\ length va = length tr
          /\ length l2 = (if compute_L2_loss a then length tr else 0)%nat
          /\ (length tr <= max_epoch a)%nat).
Proof.
  split; [|split; [|split]].
  - intros. split.
    + intros m g' Hinit.
      destruct (init_fields E _ _ _ _ _ _ _ _ _ _ _ _ _ _ _ Hinit)
        as (_ & _ & _ & _ & _ & _ & _ & _ & _ & _ & H1 & H2 & H3 & _).
      now repeat split.
    + intros Hh Hrff.
      destruct (init_returns E f0 lb0 ub0 bc lam h n set_rff rff_num u std B g
                  Hh Hrff) as (m & g' & Hinit).
      destruct (init_fields E _ _ _ _ _ _ _ _ _ _ _ _ _ _ _ Hinit)
        as (_ & _ & _ & _ & _ & _ & _ & _ & _ & _ & H1 & H2 & H3 & _).
      now exists m, g'.
  - intros a dl epoch st st1 H.
    destruct (epoch_body_records E a dl _ _ _ H)
      as (_ & _ & tr & _ & _ & _ & Ht & (va & Hv) & HL & _).
    destruct (compute_L2_loss a).
    + destruct HL as [e He]. now exists tr, va, [e].
    + exists tr, va, []. now rewrite app_nil_r.
  - intros a st st' stop H. now apply stopping_rule_self in H.
  - intros a m g out st' H. unfold Train in H.
    apply bind_Ok in H. destruct H as ([dl g'] & _ & H).
    apply bind_Ok in H. destruct H as (optimizer & _ & H).
    apply epochs_append in H. exact H.
Qed.










End RunFacts.

(* ------------------------------------------------------------------ *)
(** ** Progress display *)

Lemma result_map_bind {A B A' B' : Type} (h : A -> A') (k : B -> B')
    (c : result A) (c' : result A') (K : A -> result B) (K' : A' -> result B') :
  result_map h c = c' ->
  (forall x, result_map k (K x) = K' (h x)) ->
  result_map k (bind c K) = bind c' K'.
Proof. intros <- HK. destruct c as [x|e]; cbn; [apply HK|reflexivity]. Qed.

Section DisplayFacts.

Variable E : Collaborators.
Variable a : train_args.
Variable dl : DataLoader.

(** The only failure the display can cause is excluded. *)
Hypothesis period_not_zero : progress_period dl <> 0%Z.

Lemma train_batches_muted (b : bool) (xs : list tensor) :
  forall epoch i st acc,
    result_map (fun p => (mute E (fst p), snd p))
               (train_batches E (with_display a b) dl epoch i xs st acc)
    = train_batches E (with_display a false) dl epoch i xs (mute E st) acc.
Proof.
  induction xs as [|x rest IH]; intros epoch i st acc; [reflexivity|].
  cbn [train_batches display with_display bind].
  destruct b.
  - assert (Hshown : exists shown,
               (if (i =? 0)%nat then Ok true
                else r <- py_mod (Z.of_nat (i + 1))
                           (py_round (inject_Z (Z.of_nat (n_train_batches dl)) / 5)) ;;
                     Ok (r =? 0)%Z) = Ok shown).
    { destruct (i =? 0)%nat; [now eexists|].
      unfold py_mod. fold (progress_period dl).
      destruct (Z.eqb_spec (progress_period dl) 0); [contradiction|].
      cbn [bind]. now eexists. }
    destruct Hshown as [shown ->]. cbn [bind].
    rewrite IH. destruct shown; reflexivity.
  - cbn [bind]. rewrite IH. reflexivity.
Qed.

Lemma epoch_end_muted (b : bool) (epoch : nat) (st : run E) (acc : Q) :
  result_map (mute E) (epoch_end E (with_display a b) dl epoch st acc)
  = epoch_end E (with_display a false) dl epoch (mute E st) acc.
Proof.
  unfold epoch_end. cbn [display with_display compute_L2_loss true_sol].
  destruct (py_truediv acc (n_train_batches dl)) as [tr|e]; [|reflexivity].
  cbn [bind]. destruct (compute_L2_loss a).
  - unfold L2_error. destruct (true_sol a) as [sol|]; [|reflexivity].
    cbn [bind]. destruct b; reflexivity.
  - cbn [bind]. destruct b; reflexivity.
Qed.

Lemma epoch_body_muted (b : bool) (epoch : nat) (st : run E) :
  result_map (mute E) (epoch_body E (with_display a b) dl epoch st)
  = epoch_body E (with_display a false) dl epoch (mute E st).
Proof.
  rewrite !epoch_body_stages.
  apply (result_map_bind (fun p => (mute E (fst p), snd p))).
  - rewrite train_batches_muted. destruct b; reflexivity.
  - intros [st' acc]. apply epoch_end_muted.
Qed.

Lemma stopping_rule_muted (b : bool) (st : run E) :
  result_map (fun p => (fst p, mute E (snd p)))
             (stopping_rule E (with_display a b) st)
  = stopping_rule E (with_display a false) (mute E st).
Proof.
  unfold stopping_rule.
  cbn [abs_tolerance min_lr lr_step_size lr_gamma with_display mute self lr].
  destruct (py_last (validate_loss (self st))) as [v|e]; [|reflexivity].
  cbn [bind]. destruct (Qlt_bool v (abs_tolerance a)); [reflexivity|].
  destruct (26 <? length (validate_loss (self st)))%nat.
  - destruct (plateau (validate_loss (self st))); reflexivity.
  - destruct (Qlt_bool (min_lr a) (lr st)); [|reflexivity].
    unfold scheduler_step.
    cbn [mute self gen stdout lr opt_steps last_epoch].
    destruct (py_mod (Z.of_nat (S (last_epoch st))) (Z.of_nat (lr_step_size a)));
      reflexivity.
Qed.

Lemma epochs_muted (b : bool) (remaining : nat) :
  forall epoch st,
    result_map (mute E) (epochs E (with_display a b) dl remaining epoch st)
    = epochs E (with_display a false) dl remaining epoch (mute E st).
Proof.
  induction remaining as [|r IH]; intros epoch st; [reflexivity|].
  cbn [epochs].
  apply (result_map_bind (mute E)); [apply epoch_body_muted|].
  intros st1.
  apply (result_map_bind (fun p => (fst p, mute E (snd p))));
    [apply stopping_rule_muted|].
  intros [stop st2]. cbn [fst snd]. destruct stop; [reflexivity|apply IH].
Qed.

(** Whenever [round(n_train_batches/5)] is not 0, running the epochs
    with and without display gives the same outcome: the same error, or
    final states that differ in what was printed only. *)
Lemma display_is_side_channel (remaining epoch : nat) (st : run E) :
  result_map (mute E) (epochs E (with_display a true) dl remaining epoch st)
  = result_map (mute E) (epochs E (with_display a false) dl remaining epoch st).
Proof. now rewrite !epochs_muted. Qed.

End DisplayFacts.

(* ------------------------------------------------------------------ *)
(** ** Runs of the closed instance *)

(** C3 (the code at the failing input).  After 26 epochs of a run whose
    validation loss never changes, 26 losses are recorded, their 25
    relative changes are all below [1e-4] and the last loss is not below
    the tolerance; the stopping rule does not break, and the run stops
    only when a 27th loss is recorded. *)
Theorem plateau_missed_at_26_entries :
  let st := Toy.state_of (Train Toy.env (Toy.flat 26) Toy.pinn 0%nat [])
                         (Toy.start (Toy.flat 26)) in
  Toy.history_lengths (Train Toy.env (Toy.flat 26) Toy.pinn 0%nat [])
  = Some (26, 26, 0)%nat
  /\ plateau (validate_loss (self st)) = true
  /\ stopping_rule Toy.env (Toy.flat 26) st = Ok (false, st)
  /\ Toy.history_lengths (Train Toy.env (Toy.flat 40) Toy.pinn 0%nat [])
     = Some (27, 27, 0)%nat.
Proof. cbv zeta. split; [|split; [|split]]; vm_compute; reflexivity. Qed.

(** C4 (the code at the failing input).  In 60 epochs that neither
    converge nor plateau, with the learning rate [1/8] above the minimum
    [0] throughout and a scheduler period of 30, the scheduler is stepped
    26 times only and the rate is never decayed. *)
Theorem scheduler_starved_after_26 :
  Toy.history_lengths (Train Toy.env (Toy.steady 60) Toy.pinn 0%nat [])
  = Some (60, 60, 0)%nat
  /\ Toy.scheduler_of (Train Toy.env (Toy.steady 60) Toy.pinn 0%nat [])
     = Some (1 # 8, 26%nat).
Proof. split; vm_compute; reflexivity. Qed.

(** C7 (the code at the failing input).  With two mini-batches per epoch
    the run with progress display raises [ZeroDivisionError] at the second
    step of the first epoch ([round(2/5)] is 0), while the same run
    without display completes its three epochs. *)
Theorem display_raises_on_two_batches :
  n_train_batches (Toy.loader 2 1) = 2%nat
  /\ py_round (inject_Z 2 / 5) = 0%Z
  /\ Train Toy.env (Toy.two_batches true) Toy.pinn 0%nat []
     = Raise ZeroDivisionError
  /\ Toy.history_lengths (Train Toy.env (Toy.two_batches false) Toy.pinn 0%nat [])
     = Some (3, 3, 0)%nat.
Proof. split; [|split; [|split]]; vm_compute; reflexivity. Qed.

(** C6 (as stated) fails: for 5 training samples the validation batch
    has [round(5/3) = 2] samples, not the floor 1. *)
Lemma validation_batch_not_floor :
  let a := Toy.args 5 5 0 30 0 1 false false in
  validate_num a = 2%Z
  /\ Qfloor (inject_Z (Z.of_nat (train_num a)) / 3) = 1%Z
  /\ validate_num a <> Qfloor (inject_Z (Z.of_nat (train_num a)) / 3).
Proof. cbv zeta. split; [|split]; vm_compute; [reflexivity|reflexivity|discriminate]. Qed.


(* ------------------------------------------------------------------ *)
(** ** The theorems at concrete inputs *)

(** [init_never_raises] on a depth of 2 and the reversed bounds
    [lb = 1], [ub = 0]. *)
Lemma init_never_raises_witness :
  (0 <= 8)%Z
  /\ (false = true -> rff_error Toy.env 1 25 0 1 None = None /\ (0 <= 25)%Z)
  /\ exists m g' blocks,
      init Toy.env Toy.rhs 1 0 (1%Z, 0, 0) (1, 1, 1) 8 2 false 25 0 1 None 0%nat
      = Ok (m, g')
      /\ lb m = 1 /\ ub m = 0 /\ n_layers m = 2%Z
      /\ hiddens m = Sequential blocks
      /\ Z.of_nat (length blocks) = Z.max (2 - 3) 0.
Proof.
  assert (Hh : (0 <= 8)%Z) by (vm_compute; discriminate).
  assert (Hrff : false = true ->
                 rff_error Toy.env 1 25 0 1 None = None /\ (0 <= 25)%Z)
    by discriminate.
  split; [exact Hh|]. split; [exact Hrff|].
  exact (init_never_raises Toy.env Toy.rhs 1 0 (1%Z, 0, 0) (1, 1, 1) 8 2 false
           25 0 1 None 0%nat Hh Hrff).
Defined.

(** [ResidualLoss_total] on the Dirichlet model and a batch of two
    points, with [lambdas[0]] replaced by 7. *)
Lemma ResidualLoss_total_witness :
  xl Toy.pinn = [lb Toy.pinn] /\ xu Toy.pinn = [ub Toy.pinn]
  /\ length (f Toy.pinn Toy.two_points
               (value (forward Toy.env Toy.pinn Toy.two_points))
               (value (autograd_grad (forward Toy.env Toy.pinn Toy.two_points))))
     = length Toy.two_points
  /\ (ResidualLoss Toy.env Toy.pinn Toy.two_points
                   (forward Toy.env Toy.pinn Toy.two_points)
      = spec_interior_residual
          (fun q => fwd Toy.env (parameters Toy.pinn) q 0%nat)
          (fun q => fwd Toy.env (parameters Toy.pinn) q 1%nat)
          (fun q => fwd Toy.env (parameters Toy.pinn) q 2%nat)
          (f Toy.pinn) Toy.two_points
        + spec_boundary_term_1
            (fun q => fwd Toy.env (parameters Toy.pinn) q 0%nat)
            (fun q => fwd Toy.env (parameters Toy.pinn) q 1%nat)
            (kind_of_tag (BC0 (BC Toy.pinn)))
            (lambdas1 (lambdas Toy.pinn)) (BC1 (BC Toy.pinn)) (lb Toy.pinn)
        + spec_boundary_term_2
            (fun q => fwd Toy.env (parameters Toy.pinn) q 0%nat)
            (fun q => fwd Toy.env (parameters Toy.pinn) q 1%nat)
            (kind_of_tag (BC0 (BC Toy.pinn)))
            (lambdas2 (lambdas Toy.pinn)) (BC2 (BC Toy.pinn)) (ub Toy.pinn))
  /\ ResidualLoss Toy.env
        (with_lambdas Toy.env Toy.pinn
           (7, lambdas1 (lambdas Toy.pinn), lambdas2 (lambdas Toy.pinn)))
        Toy.two_points
        (forward Toy.env
           (with_lambdas Toy.env Toy.pinn
              (7, lambdas1 (lambdas Toy.pinn), lambdas2 (lambdas Toy.pinn)))
           Toy.two_points)
     = ResidualLoss Toy.env Toy.pinn Toy.two_points
                    (forward Toy.env Toy.pinn Toy.two_points).
Proof.
  split; [reflexivity|]. split; [reflexivity|]. split; [reflexivity|].
  destruct (ResidualLoss_total Toy.env Toy.pinn Toy.two_points
              eq_refl eq_refl eq_refl) as [H1 H2].
  split; [exact H1 | exact (H2 7)].
Defined.

(** [boundary_terms_by_kind] on a model whose tag is 7: the kind-3
    terms. *)
Lemma boundary_terms_by_kind_witness :
  let m := Toy.pinn_kind 7 in
  let t := ResidualLoss_terms Toy.env m Toy.two_points
                              (forward Toy.env m Toy.two_points) in
  xl m = [lb m] /\ xu m = [ub m]
  /\ BC0 (BC m) <> 1%Z /\ BC0 (BC m) <> 2%Z
  /\ Lb1_of t
     = lambdas1 (lambdas m)
       * sq (fwd Toy.env (parameters m) (lb m) 0%nat
             + fwd Toy.env (parameters m) (lb m) 1%nat - BC1 (BC m))
  /\ Lb2_of t
     = lambdas2 (lambdas m)
       * sq (fwd Toy.env (parameters m) (ub m) 1%nat - BC2 (BC m)).
Proof.
  cbv zeta.
  split; [reflexivity|]. split; [reflexivity|].
  split; [discriminate|]. split; [discriminate|].
  apply (boundary_terms_by_kind Toy.env (Toy.pinn_kind 7) Toy.two_points
           (forward Toy.env (Toy.pinn_kind 7) Toy.two_points)
           eq_refl eq_refl); discriminate.
Defined.

(** [convergence_stop_first] on a run whose first validation loss, 1/2,
    is below the tolerance 10: of the five epochs allowed one is run. *)
Lemma convergence_stop_first_witness :
  epoch_body Toy.env Toy.easy (Toy.loader 3 5) 0 (Toy.start Toy.easy)
  = Ok (Toy.first_epoch Toy.easy)
  /\ (exists v, py_last (validate_loss (self (Toy.first_epoch Toy.easy))) = Ok v
                /\ v < abs_tolerance Toy.easy)
  /\ stopping_rule Toy.env Toy.easy (Toy.first_epoch Toy.easy)
     = Ok (true, Toy.first_epoch Toy.easy)
  /\ epochs Toy.env Toy.easy (Toy.loader 3 5) 5 0 (Toy.start Toy.easy)
     = Ok (Toy.first_epoch Toy.easy)
  /\ lr (Toy.first_epoch Toy.easy) = lr (Toy.start Toy.easy)
  /\ last_epoch (Toy.first_epoch Toy.easy) = last_epoch (Toy.start Toy.easy).
Proof.
  assert (Hbody : epoch_body Toy.env Toy.easy (Toy.loader 3 5) 0 (Toy.start Toy.easy)
                  = Ok (Toy.first_epoch Toy.easy))
    by (vm_compute; reflexivity).
  assert (Hlast : py_last (validate_loss (self (Toy.first_epoch Toy.easy)))
                  = Ok (8 # 16))
    by (vm_compute; reflexivity).
  assert (Hlt : 8 # 16 < abs_tolerance Toy.easy) by reflexivity.
  split; [exact Hbody|].
  split; [exists (8 # 16); split; assumption|].
  exact (convergence_stop_first Toy.env Toy.easy (Toy.loader 3 5) 4 0
           (Toy.start Toy.easy) (Toy.first_epoch Toy.easy) (8 # 16)
           Hbody Hlast Hlt).
Defined.

(** [validation_batch_rounded] on the first epoch of that run. *)
Lemma validation_batch_rounded_witness :
  epoch_body Toy.env Toy.easy (Toy.loader 3 5) 0 (Toy.start Toy.easy)
  = Ok (Toy.first_epoch Toy.easy)
  /\ exists st_tr acc,
      train_batches Toy.env Toy.easy (Toy.loader 3 5) 0 0
        (epoch_batches Toy.env (Toy.loader 3 5) (Toy.start Toy.easy))
        (epoch_start Toy.env Toy.easy (Toy.loader 3 5) 0 (Toy.start Toy.easy)) 0
      = Ok (st_tr, acc)
      /\ let n := Z.to_nat (py_round (inject_Z (Z.of_nat (train_num Toy.easy)) / 3)) in
         let xv := fst (sample_one_batch Toy.env (self st_tr) n (-1) (gen st_tr)) in
         length xv = n
         /\ validate_loss (self (Toy.first_epoch Toy.easy))
            = validate_loss (self (Toy.start Toy.easy))
              ++ [ResidualLoss Toy.env (self st_tr) xv
                               (forward Toy.env (self st_tr) xv)]
         /\ parameters (self (Toy.first_epoch Toy.easy)) = parameters (self st_tr)
         /\ opt_steps (Toy.first_epoch Toy.easy) = opt_steps st_tr
         /\ n = ((train_num Toy.easy + 1) / 3)%nat.
Proof.
  assert (Hbody : epoch_body Toy.env Toy.easy (Toy.loader 3 5) 0 (Toy.start Toy.easy)
                  = Ok (Toy.first_epoch Toy.easy))
    by (vm_compute; reflexivity).
  split; [exact Hbody|].
  exact (validation_batch_rounded Toy.env Toy.easy (Toy.loader 3 5) 0
           (Toy.start Toy.easy) (Toy.first_epoch Toy.easy) Hbody).
Defined.


(** [histories_append_only] on a run of four epochs. *)
Lemma histories_append_only_witness :
  Train Toy.env (Toy.steady 4) Toy.pinn 0%nat []
  = Ok (Toy.state_of (Train Toy.env (Toy.steady 4) Toy.pinn 0%nat [])
                     (Toy.start (Toy.steady 4)))
  /\ exists tr va l2,
      let st' := Toy.state_of (Train Toy.env (Toy.steady 4) Toy.pinn 0%nat [])
                              (Toy.start (Toy.steady 4)) in
      train_loss (self st') = train_loss Toy.pinn ++ tr
      /\ validate_loss (self st') = validate_loss Toy.pinn ++ va
      /\ L2_loss (self st') = L2_loss Toy.pinn ++ l2
      /\ length va = length tr
      /\ length l2 = (if compute_L2_loss (Toy.steady 4) then length tr else 0)%nat
      /\ (length tr <= max_epoch (Toy.steady 4))%nat.
Proof.
  assert (Hrun : Train Toy.env (Toy.steady 4) Toy.pinn 0%nat []
                 = Ok (Toy.state_of (Train Toy.env (Toy.steady 4) Toy.pinn 0%nat [])
                                    (Toy.start (Toy.steady 4))))
    by (vm_compute; reflexivity).
  split; [exact Hrun|].
  exact (proj2 (proj2 (proj2 (histories_append_only Toy.env)))
           (Toy.steady 4) Toy.pinn 0%nat [] _ Hrun).
Defined.

(* ------------------------------------------------------------------ *)
(** * Further properties of the code *)

(* ------------------------------------------------------------------ *)
(** ** Sign and zeros of the loss *)

Section LossBounds.

Variable E : Collaborators.

Lemma tsum_nonneg (t : tensor) :
  Forall (fun v => 0 <= v) t -> 0 <= tsum t.
Proof.
  induction 1 as [|v t Hv _ IH]; [apply Qle_refl|].
  cbn [tsum fold_right]. fold (tsum t).
  apply (Qplus_le_compat 0 v 0 (tsum t)); assumption.
Qed.

Lemma tsq_nonneg (t : tensor) : Forall (fun v => 0 <= v) (tsq t).
Proof.
  unfold tsq. apply Forall_forall. intros v Hv.
  apply in_map_iff in Hv. destruct Hv as (u & <- & _). apply Qsqr_nonneg.
Qed.

Lemma tscale_nonneg (c : Q) (t : tensor) :
  0 <= c -> Forall (fun v => 0 <= v) t -> Forall (fun v => 0 <= v) (tscale c t).
Proof.
  intros Hc Ht. unfold tscale. apply Forall_forall. intros v Hv.
  apply in_map_iff in Hv. destruct Hv as (u & <- & Hu).
  apply Qmult_le_0_compat; [exact Hc|].
  revert Hu. now apply Forall_forall.
Qed.

Lemma squeeze_nonneg (t : tensor) :
  Forall (fun v => 0 <= v) t -> 0 <= squeeze t.
Proof.
  intros Ht. destruct t as [|q [|r t]]; cbn [squeeze]; try apply Qle_refl.
  now inversion Ht.
Qed.

Lemma boundary_penalty_nonneg (w : Q) (t : tensor) :
  0 <= w -> 0 <= squeeze (tscale w (tsq t)).
Proof.
  intros Hw. apply squeeze_nonneg, tscale_nonneg; [exact Hw|apply tsq_nonneg].
Qed.

Lemma terms_nonneg (m : model E) (x : tensor) (y_hat : tracked) :
  0 <= lambdas1 (lambdas m) -> 0 <= lambdas2 (lambdas m) ->
  0 <= Lp_of (ResidualLoss_terms E m x y_hat)
  /\ 0 <= Lb1_of (ResidualLoss_terms E m x y_hat)
  /\ 0 <= Lb2_of (ResidualLoss_terms E m x y_hat).
Proof.
  intros H1 H2. split.
  - rewrite interior_term. unfold Qdiv.
    apply Qmult_le_0_compat; [apply tsum_nonneg, tsq_nonneg|].
    apply Qinv_le_0_compat.
    change 0 with (inject_Z 0). rewrite <- Zle_Qle. apply Nat2Z.is_nonneg.
  - unfold ResidualLoss_terms.
    destruct (BC0 (BC m) =? 1)%Z; [|destruct (BC0 (BC m) =? 2)%Z];
      cbn [Lb1_of Lb2_of fst snd]; split; now apply boundary_penalty_nonneg.
Qed.

Lemma sum_of_terms_nonneg (m : model E) (x : tensor) (y_hat : tracked) :
  0 <= lambdas1 (lambdas m) -> 0 <= lambdas2 (lambdas m) ->
  0 <= ResidualLoss E m x y_hat.
Proof.
  intros H1 H2. destruct (terms_nonneg m x y_hat H1 H2) as (Hp & Hb1 & Hb2).
  unfold ResidualLoss.
  apply (Qplus_le_compat 0 _ 0 _); [|exact Hb2].
  apply (Qplus_le_compat 0 _ 0 _); assumption.
Qed.

(** X1.  With boundary weights that are not negative the loss is not
    negative, for every batch that is not empty, every prediction and
    every kind of boundary condition.  (On an empty batch torch's mean
    is [nan].) *)
Theorem ResidualLoss_nonneg (m : model E) (x : tensor) (y_hat : tracked) :
  x <> [] ->
  0 <= lambdas1 (lambdas m) -> 0 <= lambdas2 (lambdas m) ->
  0 <= ResidualLoss E m x y_hat.
Proof. intros _. exact (sum_of_terms_nonneg m x y_hat). Qed.

Lemma sq_zero (q : Q) : q == 0 -> sq q == 0.
Proof. intros H. unfold sq. rewrite H. reflexivity. Qed.

Lemma sum_sq_zero (a b : tensor) :
  Forall2 Qeq a b -> tsum (tsq (tsub a b)) == 0.
Proof.
  induction 1 as [|u v a b Huv _ IH]; [reflexivity|].
  change (tsum (tsq (tsub (u :: a) (v :: b))))
    with (sq (u - v) + tsum (tsq (tsub a b))).
  rewrite IH, sq_zero; [reflexivity|]. rewrite Huv. ring.
Qed.

(** X2.  The loss vanishes on an exact solution: when the second derivative
    of the network equals the right-hand side on every row of the batch
    and the boundary data are met (value at both ends for kind 1, value
    at [lb] and derivative at [ub] for kind 2, value plus derivative at
    [lb] and derivative at [ub] otherwise), the loss of a batch that is
    not empty is 0 whatever the weights.  (On an empty batch torch's
    mean is [nan].) *)
Theorem ResidualLoss_zero_on_solution (m : model E) (x : tensor) :
  x <> [] ->
  xl m = [lb m] -> xu m = [ub m] ->
  let N := fun q => fwd E (parameters m) q 0%nat in
  let N1 := fun q => fwd E (parameters m) q 1%nat in
  let N2 := fun q => fwd E (parameters m) q 2%nat in
  Forall2 Qeq (map N2 x) (f m x (map N x) (map N1 x)) ->
  match kind_of_tag (BC0 (BC m)) with
  | KindA => N (lb m) == BC1 (BC m) /\ N (ub m) == BC2 (BC m)
  | KindB => N (lb m) == BC1 (BC m) /\ N1 (ub m) == BC2 (BC m)
  | KindC => N (lb m) + N1 (lb m) == BC1 (BC m) /\ N1 (ub m) == BC2 (BC m)
  end ->
  ResidualLoss E m x (forward E m x) == 0.
Proof.
  intros _ Hl Hu N N1 N2 Hode Hbc. unfold ResidualLoss.
  destruct (boundary_terms E m x (forward E m x) Hl Hu) as [H1 H2].
  rewrite H1, H2, interior_term.
  rewrite value_forward, value_grad_forward, value_grad_grad_forward.
  fold N N1 N2. rewrite (sum_sq_zero _ _ Hode).
  destruct (kind_of_tag (BC0 (BC m))); destruct Hbc as [Hb1 Hb2];
    cbn [spec_boundary_term_1 spec_boundary_term_2];
    rewrite (sq_zero (_ - BC1 (BC m))), (sq_zero (_ - BC2 (BC m)));
    try (unfold Qdiv; ring);
    try (rewrite Hb1; ring); try (rewrite Hb2; ring).
Qed.

End LossBounds.

(* ------------------------------------------------------------------ *)
(** ** Sampling *)

Lemma affine_in_domain (lo hi t : Q) :
  lo <= hi -> 0 <= t -> t < 1 ->
  lo <= (hi - lo) * t + lo /\ (hi - lo) * t + lo <= hi.
Proof. intros H0 H1 H2. split; nra. Qed.

Section Sampling.

Variable E : Collaborators.

Lemma scaled_in_domain (m : model E) (u : tensor) :
  lb m <= ub m ->
  Forall (fun t => 0 <= t /\ t < 1) u ->
  Forall (fun v => lb m <= v /\ v <= ub m)
         (map (fun t => (ub m - lb m) * t + lb m) u).
Proof.
  intros Hd Hu. apply Forall_forall. intros v Hv.
  apply in_map_iff in Hv. destruct Hv as (t & <- & Ht).
  rewrite Forall_forall in Hu. destruct (Hu t Ht) as [H0 H1].
  now apply affine_in_domain.
Qed.

(** X3.  On a domain with [lb <= ub], and with [torch.rand] drawing from
    [0, 1), every batch [sample_one_batch] returns has the requested
    number of rows, all in [[lb, ub]], whatever the seed; and so has the
    dataset of the training loader. *)
Theorem samples_in_domain (m : model E) :
  lb m <= ub m ->
  (forall g n, Forall (fun t => 0 <= t /\ t < 1) (fst (torch_rand E g n))) ->
  (forall n seed g,
      length (fst (sample_one_batch E m n seed g)) = n
      /\ Forall (fun v => lb m <= v /\ v <= ub m)
                (fst (sample_one_batch E m n seed g)))
  /\ (forall bs n g dl g',
        construct_train_dataloader E m bs n g = Ok (dl, g') ->
        length (dataset dl) = n
        /\ Forall (fun v => lb m <= v /\ v <= ub m) (dataset dl)).
Proof.
  intros Hd Hrand. split.
  - intros n seed g. unfold sample_one_batch. cbn [fst]. split.
    + now rewrite length_map, torch_rand_length.
    + apply scaled_in_domain; [exact Hd|apply Hrand].
  - intros bs n g dl g' H. unfold construct_train_dataloader in H.
    destruct (n =? 0)%nat; [discriminate|].
    destruct (bs =? 0)%nat; [discriminate|]. injection H as <- _.
    cbn [dataset]. split.
    + now rewrite length_map, torch_rand_length.
    + apply scaled_in_domain; [exact Hd|apply Hrand].
Qed.

(** X4.  A positive [random_seed] makes validation independent of the state
    of the generator: the loss and the generator left behind are those of
    the seed.  A seed that is not positive, 0 included, is ignored. *)
Theorem Validate_seed (m : model E) (n : nat) (seed : Z) (g g' : Rng E) :
  ((0 < seed)%Z -> Validate E m n seed g = Validate E m n seed g')
  /\ ((seed <= 0)%Z -> Validate E m n seed g = Validate E m n (-1) g).
Proof.
  unfold Validate, sample_one_batch. split; intros H.
  - apply Z.ltb_lt in H. now rewrite H.
  - apply Z.ltb_ge in H. now rewrite H.
Qed.

(** [Test] returns the loss [Validate] computes for the same arguments
    and generator, prints that loss and nothing else, leaves the same
    generator behind, and changes nothing of the model but its mode. *)
Lemma Test_as_Validate (m : model E) (n : nat) (seed : Z) (g : Rng E)
    (out : list line) :
  let v := Validate E m n seed g in
  Test E m n seed g out
  = (fst (fst v), snd (fst v), snd v, out ++ [TestReport (snd (fst v))])
  /\ fst (fst v) = with_training E m false.
Proof. split; reflexivity. Qed.

End Sampling.

(* ------------------------------------------------------------------ *)
(** ** The stopping rule and the scheduler over whole runs *)

Lemma div_succ (n step : nat) :
  step <> 0%nat ->
  (S n / step = if (S n mod step =? 0) then S (n / step) else n / step)%nat.
Proof.
  intros Hs.
  pose proof (Nat.div_mod_eq (S n) step) as H1.
  pose proof (Nat.div_mod_eq n step) as H2.
  pose proof (Nat.mod_upper_bound (S n) step Hs) as B1.
  pose proof (Nat.mod_upper_bound n step Hs) as B2.
  destruct (Nat.eqb_spec (S n mod step) 0) as [H0|H0]; nia.
Qed.

Section RuleFacts.

Variable E : Collaborators.
Variable a : train_args.

Lemma scheduler_step_inv (st st' : run E) :
  scheduler_step E (lr_step_size a) (lr_gamma a) st = Ok st' ->
  lr_step_size a <> 0%nat
  /\ self st' = self st /\ gen st' = gen st /\ stdout st' = stdout st
  /\ opt_steps st' = opt_steps st
  /\ last_epoch st' = S (last_epoch st)
  /\ lr st' = if (S (last_epoch st) mod lr_step_size a =? 0)%nat
              then lr st * lr_gamma a else lr st.
Proof.
  unfold scheduler_step, py_mod. intros H.
  destruct (Z.eqb_spec (Z.of_nat (lr_step_size a)) 0) as [H0|H0]; [discriminate|].
  cbn [bind] in H. rewrite <- Nat2Z.inj_mod in H.
  injection H as <-. cbn [self gen stdout opt_steps last_epoch lr].
  assert (Hs : lr_step_size a <> 0%nat) by lia.
  repeat split; try assumption.
  destruct (Nat.eqb_spec (S (last_epoch st) mod lr_step_size a) 0) as [Hm|Hm].
  - rewrite Hm. reflexivity.
  - destruct (Z.eqb_spec (Z.of_nat (S (last_epoch st) mod lr_step_size a)) 0);
      [lia|reflexivity].
Qed.

(** The five ways through the stopping rule. *)
Lemma stopping_rule_cases (st st' : run E) (stop : bool) :
  stopping_rule E a st = Ok (stop, st') ->
  exists v,
    py_last (validate_loss (self st)) = Ok v
    /\ ((stop = true /\ st' = st /\ v < abs_tolerance a)
        \/ (stop = true /\ st' = st /\ ~ v < abs_tolerance a
            /\ (26 < length (validate_loss (self st)))%nat
            /\ plateau (validate_loss (self st)) = true)
        \/ (stop = false /\ st' = st /\ ~ v < abs_tolerance a
            /\ (26 < length (validate_loss (self st)))%nat
            /\ plateau (validate_loss (self st)) = false)
        \/ (stop = false /\ ~ v < abs_tolerance a
            /\ (length (validate_loss (self st)) <= 26)%nat
            /\ min_lr a < lr st
            /\ scheduler_step E (lr_step_size a) (lr_gamma a) st = Ok st')
        \/ (stop = false /\ st' = st /\ ~ v < abs_tolerance a
            /\ (length (validate_loss (self st)) <= 26)%nat
            /\ ~ min_lr a < lr st)).
Proof.
  unfold stopping_rule. intros H.
  apply bind_Ok in H. destruct H as (v & Hv & H). exists v. split; [exact Hv|].
  destruct (Qlt_bool v (abs_tolerance a)) eqn:Hc.
  { injection H as <- <-. left. apply Qlt_bool_iff in Hc. now repeat split. }
  apply Qlt_bool_false in Hc. right.
  destruct (Nat.ltb_spec 26 (length (validate_loss (self st)))) as [Hl|Hl].
  { destruct (plateau (validate_loss (self st))) eqn:Hp; injection H as <- <-.
    - left. now repeat split.
    - right. left. now repeat split. }
  right. right.
  destruct (Qlt_bool (min_lr a) (lr st)) eqn:Hr.
  - apply bind_Ok in H. destruct H as (st2 & Hs & H). injection H as <- <-.
    left. apply Qlt_bool_iff in Hr. now repeat split.
  - injection H as <- <-. right. apply Qlt_bool_false in Hr. now repeat split.
Qed.

End RuleFacts.

Section WholeRuns.

Variable E : Collaborators.
Variable a : train_args.
Variable dl : DataLoader.

(** One turn of the loop: the epoch, then the rule. *)
Lemma epochs_unfold (r epoch : nat) (st st' : run E) :
  epochs E a dl (S r) epoch st = Ok st' ->
  exists st1 stop st2,
    epoch_body E a dl epoch st = Ok st1
    /\ stopping_rule E a st1 = Ok (stop, st2)
    /\ (if stop then st' = st2 else epochs E a dl r (S epoch) st2 = Ok st').
Proof.
  cbn [epochs]. intros H.
  apply bind_Ok in H. destruct H as (st1 & Hbody & H).
  apply bind_Ok in H. destruct H as ([stop st2] & Hstop & H).
  exists st1, stop, st2. split; [exact Hbody|]. split; [exact Hstop|].
  destruct stop; [now injection H as <-|exact H].
Qed.

Lemma epochs_scheduler_bound (r : nat) :
  forall epoch st st',
    epochs E a dl r epoch st = Ok st' ->
    (last_epoch st' <= last_epoch st + (26 - length (validate_loss (self st))))%nat.
Proof.
  induction r as [|r IH]; intros epoch st st' H.
  - cbn in H. injection H as <-. lia.
  - apply epochs_unfold in H. destruct H as (st1 & stop & st2 & Hbody & Hrule & H).
    destruct (epoch_body_records E a dl _ _ _ Hbody)
      as (_ & _ & _ & _ & _ & _ & _ & (va & Hv) & _ & _ & Hlast & _).
    assert (Hlen : length (validate_loss (self st1))
                   = S (length (validate_loss (self st))))
      by (rewrite Hv, length_app; cbn; lia).
    pose proof (stopping_rule_self E a _ _ _ Hrule) as Hself.
    assert (Hstep : (last_epoch st2 = last_epoch st1)
                    \/ (length (validate_loss (self st1)) <= 26
                        /\ last_epoch st2 = S (last_epoch st1))%nat).
    { destruct (stopping_rule_cases E a _ _ _ Hrule)
        as (v & _ & [C|[C|[C|[C|C]]]]).
      - left. now destruct C as (_ & -> & _).
      - left. now destruct C as (_ & -> & _).
      - left. now destruct C as (_ & -> & _).
      - right. destruct C as (_ & _ & Hl & _ & Hs).
        apply scheduler_step_inv in Hs. split; [exact Hl|]. tauto.
      - left. now destruct C as (_ & -> & _). }
    destruct stop.
    + subst st'. destruct Hstep as [Hs|[Hl Hs]]; lia.
    + apply IH in H. rewrite Hself, Hlen in H.
      destruct Hstep as [Hs|[Hl Hs]]; lia.
Qed.

Lemma epochs_lr_closed_form (lr0 : Q) (r : nat) :
  forall epoch st st',
    lr st = decayed lr0 (lr_gamma a) (last_epoch st / lr_step_size a) ->
    epochs E a dl r epoch st = Ok st' ->
    lr st' = decayed lr0 (lr_gamma a) (last_epoch st' / lr_step_size a).
Proof.
  induction r as [|r IH]; intros epoch st st' Hinv H.
  - cbn in H. now injection H as <-.
  - apply epochs_unfold in H. destruct H as (st1 & stop & st2 & Hbody & Hrule & H).
    destruct (epoch_body_records E a dl _ _ _ Hbody)
      as (_ & _ & _ & _ & _ & _ & _ & _ & _ & Hlr & Hlast & _).
    assert (Hinv2 : lr st2
                    = decayed lr0 (lr_gamma a) (last_epoch st2 / lr_step_size a)).
    { destruct (stopping_rule_cases E a _ _ _ Hrule)
        as (v & _ & [C|[C|[C|[C|C]]]]);
        try (destruct C as (_ & -> & _); now rewrite Hlr, Hlast).
      destruct C as (_ & _ & _ & _ & Hs).
      apply scheduler_step_inv in Hs.
      destruct Hs as (Hne & _ & _ & _ & _ & Hl2 & Hlr2).
      rewrite Hlr2, Hl2, (div_succ _ _ Hne), Hlr, Hlast, Hinv.
      destruct (S (last_epoch st) mod lr_step_size a =? 0)%nat; reflexivity. }
    destruct stop; [now subst st'|].
    now apply (IH _ _ _ Hinv2 H).
Qed.

(** Why a run ended before its last epoch. *)
Lemma epochs_stop_reason (r : nat) :
  forall epoch st st',
    epochs E a dl r epoch st = Ok st' ->
    (length (validate_loss (self st')) < length (validate_loss (self st)) + r)%nat ->
    exists v,
      py_last (validate_loss (self st')) = Ok v
      /\ (v < abs_tolerance a
          \/ (~ v < abs_tolerance a
              /\ (26 < length (validate_loss (self st')))%nat
              /\ plateau (validate_loss (self st')) = true)).
Proof.
  induction r as [|r IH]; intros epoch st st' H Hshort.
  - cbn in H. injection H as <-. lia.
  - apply epochs_unfold in H. destruct H as (st1 & stop & st2 & Hbody & Hrule & H).
    destruct (epoch_body_records E a dl _ _ _ Hbody)
      as (_ & _ & _ & _ & _ & _ & _ & (va & Hv) & _).
    assert (Hlen : length (validate_loss (self st1))
                   = S (length (validate_loss (self st))))
      by (rewrite Hv, length_app; cbn; lia).
    pose proof (stopping_rule_self E a _ _ _ Hrule) as Hself.
    destruct stop.
    + subst st'.
      destruct (stopping_rule_cases E a _ _ _ Hrule)
        as (v & Hlast & [C|[C|[C|[C|C]]]]);
        try (destruct C as (Hf & _); discriminate).
      * destruct C as (_ & -> & Hc). exists v. split; [exact Hlast|now left].
      * destruct C as (_ & -> & Hc & Hl & Hp). exists v.
        split; [exact Hlast|]. right. now repeat split.
    + apply IH in H; [exact H|]. rewrite Hself, Hlen. lia.
Qed.

End WholeRuns.

Section ModeAndOutput.

Variable E : Collaborators.
Variable a : train_args.
Variable dl : DataLoader.

Lemma epoch_end_eval (epoch : nat) (st st1 : run E) (acc : Q) :
  epoch_end E a dl epoch st acc = Ok st1 ->
  training (self st1) = false
  /\ (display a = false -> stdout st1 = stdout st).
Proof.
  intros H. unfold epoch_end in H.
  apply bind_Ok in H. destruct H as (tr & _ & H).
  apply bind_Ok in H. destruct H as ([st2 l2] & HL2 & H).
  injection H as <-.
  destruct (compute_L2_loss a).
  - apply bind_Ok in HL2. destruct HL2 as ([m e] & Hm & HL2).
    injection HL2 as <- <-.
    apply L2_error_model in Hm. subst m.
    destruct (display a); split; try reflexivity; discriminate.
  - injection HL2 as <- <-.
    destruct (display a); split; try reflexivity; discriminate.
Qed.

Lemma train_batches_silent (xs : list tensor) :
  display a = false ->
  forall epoch i st acc st' acc',
    train_batches E a dl epoch i xs st acc = Ok (st', acc') ->
    stdout st' = stdout st.
Proof.
  intros Hd. induction xs as [|x rest IH]; intros epoch i st acc st' acc' H.
  - cbn in H. now injection H as <- _.
  - cbn [train_batches] in H. rewrite Hd in H. cbn [bind] in H.
    apply IH in H. exact H.
Qed.

Lemma epoch_body_silent (epoch : nat) (st st1 : run E) :
  epoch_body E a dl epoch st = Ok st1 ->
  training (self st1) = false
  /\ (display a = false -> stdout st1 = stdout st).
Proof.
  intros H. rewrite epoch_body_stages in H.
  apply bind_Ok in H. destruct H as ([st_tr acc] & Htr & Hend).
  apply epoch_end_eval in Hend. destruct Hend as [Hmode Hout].
  split; [exact Hmode|]. intros Hd.
  rewrite (Hout Hd), (train_batches_silent _ Hd _ _ _ _ _ _ Htr).
  unfold epoch_start. now rewrite Hd.
Qed.

Lemma stopping_rule_stdout (st st' : run E) (stop : bool) :
  stopping_rule E a st = Ok (stop, st') -> stdout st' = stdout st.
Proof.
  intros H.
  destruct (stopping_rule_cases E a _ _ _ H) as (v & _ & [C|[C|[C|[C|C]]]]);
    try (now destruct C as (_ & -> & _)).
  destruct C as (_ & _ & _ & _ & Hs). apply scheduler_step_inv in Hs. tauto.
Qed.

Lemma epochs_mode_and_output (r : nat) :
  forall epoch st st',
    epochs E a dl r epoch st = Ok st' ->
    ((0 < r)%nat -> training (self st') = false)
    /\ (display a = false -> stdout st' = stdout st).
Proof.
  induction r as [|r IH]; intros epoch st st' H.
  - cbn in H. injection H as <-. split; [lia|reflexivity].
  - apply epochs_unfold in H. destruct H as (st1 & stop & st2 & Hbody & Hrule & H).
    destruct (epoch_body_silent _ _ _ Hbody) as [Hmode Hout].
    pose proof (stopping_rule_self E a _ _ _ Hrule) as Hself.
    pose proof (stopping_rule_stdout _ _ _ Hrule) as Hso.
    destruct stop.
    + subst st'. split; [now rewrite Hself|].
      intros Hd. now rewrite Hso, (Hout Hd).
    + destruct (IH _ _ _ H) as [Hm Ho]. split.
      * intros _. destruct r as [|r'].
        -- cbn in H. injection H as <-. now rewrite Hself.
        -- apply Hm. lia.
      * intros Hd. now rewrite (Ho Hd), Hso, (Hout Hd).
Qed.

End ModeAndOutput.

Section TrainFacts.

Variable E : Collaborators.

Lemma Train_epochs (a : train_args) (m : model E) (g : Rng E)
    (out : list line) (st' : run E) :
  Train E a m g out = Ok st' ->
  exists dl g',
    construct_train_dataloader E m (train_batch_size a) (train_num a) g
    = Ok (dl, g')
    /\ epochs E a dl (max_epoch a) 0
              {| self := m; gen := g'; stdout := out; lr := learning_rate a;
                 opt_steps := 0; last_epoch := 0 |} = Ok st'.
Proof.
  unfold Train. intros H.
  apply bind_Ok in H. destruct H as ([dl g'] & Hdl & H).
  apply bind_Ok in H. destruct H as (optimizer & _ & H). now exists dl, g'.
Qed.

(** X5.  In a run of [Train] the scheduler is stepped at most 26 times, less
    the number of validation losses the model already holds: on a model
    that has 26 or more of them, for instance in a second call of
    [Train], it is never stepped. *)
Theorem scheduler_steps_bounded (a : train_args) (m : model E) (g : Rng E)
    (out : list line) (st' : run E) :
  Train E a m g out = Ok st' ->
  (last_epoch st' <= 26 - length (validate_loss m))%nat.
Proof.
  intros H. destruct (Train_epochs _ _ _ _ _ H) as (dl & g' & _ & He).
  apply epochs_scheduler_bound in He. exact He.
Qed.

(** X6.  When [Train] returns, the learning rate is the initial one decayed
    once for every [lr_step_size] steps of the scheduler; with a period
    above 26, the default 100 included, it is the initial rate. *)
Theorem learning_rate_closed_form (a : train_args) (m : model E) (g : Rng E)
    (out : list line) (st' : run E) :
  Train E a m g out = Ok st' ->
  lr st' = decayed (learning_rate a) (lr_gamma a)
                   (last_epoch st' / lr_step_size a)
  /\ ((26 < lr_step_size a)%nat -> lr st' = learning_rate a).
Proof.
  intros H. destruct (Train_epochs _ _ _ _ _ H) as (dl & g' & _ & He).
  assert (Hcf : lr st' = decayed (learning_rate a) (lr_gamma a)
                                 (last_epoch st' / lr_step_size a)).
  { apply (epochs_lr_closed_form E a dl (learning_rate a) _ _ _ _) in He;
      [exact He|].
    cbn [lr last_epoch]. now destruct (lr_step_size a). }
  split; [exact Hcf|]. intros Hbig.
  pose proof (epochs_scheduler_bound E a dl _ _ _ _ He) as Hb.
  cbn [self last_epoch] in Hb.
  rewrite Hcf, Nat.div_small by lia. reflexivity.
Qed.

(** X7.  A run that returns after fewer than [max_epoch] epochs ended on a
    validation loss below the tolerance, or on a plateau of more than 26
    recorded losses. *)
Theorem early_stop_reason (a : train_args) (m : model E) (g : Rng E)
    (out : list line) (st' : run E) :
  Train E a m g out = Ok st' ->
  (length (validate_loss (self st')) < length (validate_loss m) + max_epoch a)%nat ->
  exists v,
    py_last (validate_loss (self st')) = Ok v
    /\ (v < abs_tolerance a
        \/ (~ v < abs_tolerance a
            /\ (26 < length (validate_loss (self st')))%nat
            /\ plateau (validate_loss (self st')) = true)).
Proof.
  intros H Hshort. destruct (Train_epochs _ _ _ _ _ H) as (dl & g' & _ & He).
  now apply (epochs_stop_reason E a dl _ _ _ _ He).
Qed.

(** X8.  A run of at least one epoch leaves the model in evaluation mode, and
    a run without display prints nothing. *)
Theorem Train_mode_and_output (a : train_args) (m : model E) (g : Rng E)
    (out : list line) (st' : run E) :
  Train E a m g out = Ok st' ->
  ((0 < max_epoch a)%nat -> training (self st') = false)
  /\ (display a = false -> stdout st' = out).
Proof.
  intros H. destruct (Train_epochs _ _ _ _ _ H) as (dl & g' & _ & He).
  apply epochs_mode_and_output in He. exact He.
Qed.

End TrainFacts.

(* ------------------------------------------------------------------ *)
(** ** Batches of a pass *)

Lemma ceil_div_step (L bs : nat) :
  (0 < bs)%nat -> (0 < L)%nat ->
  ((L + bs - 1) / bs = S ((L - bs + bs - 1) / bs))%nat.
Proof.
  intros Hb HL. destruct (Nat.le_gt_cases bs L) as [Hge|Hlt].
  - replace (L + bs - 1)%nat with ((L - bs + bs - 1) + 1 * bs)%nat by lia.
    rewrite Nat.div_add by lia. lia.
  - replace (L - bs + bs - 1)%nat with (bs - 1)%nat by lia.
    rewrite (Nat.div_small (bs - 1)) by lia.
    symmetry. apply (Nat.div_unique _ _ 1 (L - 1)); lia.
Qed.

Lemma batches_aux_spec {A : Type} (bs : nat) :
  (0 < bs)%nat ->
  forall fuel (l : list A),
    (length l <= fuel)%nat ->
    concat (batches_aux fuel bs l) = l
    /\ length (batches_aux fuel bs l) = ((length l + bs - 1) / bs)%nat
    /\ Forall (fun b => (0 < length b <= bs)%nat) (batches_aux fuel bs l).
Proof.
  intros Hb. induction fuel as [|k IH]; intros l Hl.
  - destruct l; [|cbn in Hl; lia]. cbn.
    rewrite Nat.div_small by lia. repeat split. constructor.
  - destruct l as [|x t].
    + cbn. rewrite Nat.div_small by lia. repeat split. constructor.
    + cbn [batches_aux].
      assert (Hs : (length (skipn bs (x :: t)) <= k)%nat).
      { rewrite length_skipn. cbn [length] in *. lia. }
      destruct (IH _ Hs) as (Hc & Hn & Hf).
      split; [|split].
      * cbn [concat]. rewrite Hc. apply firstn_skipn.
      * cbn [length]. rewrite Hn, length_skipn.
        rewrite (ceil_div_step (S (length t)) bs Hb) by lia. reflexivity.
      * constructor; [|exact Hf].
        rewrite length_firstn. cbn [length]. lia.
Qed.

Lemma map_nth_seq {A : Type} (d : A) (l : list A) :
  map (fun i => nth i l d) (seq 0 (length l)) = l.
Proof.
  induction l as [|x t IH]; [reflexivity|].
  cbn [length seq map nth]. f_equal.
  rewrite <- seq_shift, map_map. exact IH.
Qed.

Section Passes.

Variable E : Collaborators.

Lemma epoch_batches_count (dl : DataLoader) (st : run E) :
  (0 < batch_size dl)%nat ->
  length (epoch_batches E dl st) = n_train_batches dl.
Proof.
  intros Hb. unfold epoch_batches, loader_iter, batches. cbn [fst].
  set (l := map _ _).
  destruct (batches_aux_spec (batch_size dl) Hb (length l) l (le_n _))
    as (_ & Hn & _).
  refine (eq_trans Hn _). unfold n_train_batches, loader_len. subst l.
  now rewrite length_map, randperm_length.
Qed.

(** X9.  A pass over a loader with a positive batch size yields exactly
    [len(loader)] batches, none empty and none above the batch size; and
    when the sampler's draw is a permutation of the indices, the batches
    laid end to end are a permutation of the dataset: every sample is
    visited exactly once. *)
Theorem pass_partitions_dataset (dl : DataLoader) (st : run E) :
  (0 < batch_size dl)%nat ->
  length (epoch_batches E dl st) = n_train_batches dl
  /\ Forall (fun b => (0 < length b <= batch_size dl)%nat) (epoch_batches E dl st)
  /\ (Permutation (fst (randperm E (gen st) (length (dataset dl))))
                  (seq 0 (length (dataset dl))) ->
      Permutation (concat (epoch_batches E dl st)) (dataset dl)).
Proof.
  intros Hb. unfold epoch_batches, loader_iter, batches. cbn [fst].
  set (l := map _ _).
  destruct (batches_aux_spec (batch_size dl) Hb (length l) l (le_n _))
    as (Hc & Hn & Hf).
  split; [|split; [exact Hf|]].
  - refine (eq_trans Hn _). unfold n_train_batches, loader_len. subst l.
    now rewrite length_map, randperm_length.
  - intros Hp.
    match goal with
    | |- Permutation ?c _ => replace c with l by (symmetry; exact Hc)
    end.
    subst l. rewrite <- (map_nth_seq 0 (dataset dl)) at 2.
    now apply Permutation_map.
Qed.

Lemma epochs_opt_steps (a : train_args) (dl : DataLoader) (r : nat) :
  (0 < batch_size dl)%nat ->
  forall epoch st st',
    epochs E a dl r epoch st = Ok st' ->
    (opt_steps st' + length (validate_loss (self st)) * n_train_batches dl
     = opt_steps st + length (validate_loss (self st')) * n_train_batches dl)%nat.
Proof.
  intros Hb. induction r as [|r IH]; intros epoch st st' H.
  - cbn in H. now injection H as <-.
  - apply epochs_unfold in H. destruct H as (st1 & stop & st2 & Hbody & Hrule & H).
    destruct (epoch_body_records E a dl _ _ _ Hbody)
      as (_ & _ & _ & _ & _ & _ & _ & (va & Hv) & _ & _ & _ & Hsteps).
    rewrite (epoch_batches_count dl st Hb) in Hsteps.
    assert (Hlen : length (validate_loss (self st1))
                   = S (length (validate_loss (self st))))
      by (rewrite Hv, length_app; cbn; lia).
    pose proof (stopping_rule_self E a _ _ _ Hrule) as Hself.
    assert (Hopt : opt_steps st2 = opt_steps st1).
    { destruct (stopping_rule_cases E a _ _ _ Hrule)
        as (v & _ & [C|[C|[C|[C|C]]]]);
        try (now destruct C as (_ & -> & _)).
      destruct C as (_ & _ & _ & _ & Hs). apply scheduler_step_inv in Hs. tauto. }
    destruct stop.
    + subst st'. rewrite Hself, Hopt, Hsteps, Hlen. lia.
    + apply IH in H. rewrite Hself, Hopt, Hsteps, Hlen in H. lia.
Qed.

(** X10.  [Train] makes [ceil(train_num / train_batch_size)] optimizer steps
    in every epoch it completes: the number of steps of a run that
    returns is that count times the number of epochs the run
    recorded. *)
Theorem Train_optimizer_steps (a : train_args) (m : model E) (g : Rng E)
    (out : list line) (st' : run E) :
  Train E a m g out = Ok st' ->
  let per_epoch := ((train_num a + train_batch_size a - 1) / train_batch_size a)%nat in
  (opt_steps st' + length (validate_loss m) * per_epoch
   = length (validate_loss (self st')) * per_epoch)%nat.
Proof.
  intros H per_epoch. destruct (Train_epochs E _ _ _ _ _ H) as (dl & g' & Hdl & He).
  unfold construct_train_dataloader in Hdl.
  destruct (Nat.eqb_spec (train_num a) 0) as [Hz|Hz]; [discriminate|].
  destruct (Nat.eqb_spec (train_batch_size a) 0) as [H0|H0]; [discriminate|].
  injection Hdl as <- _.
  apply epochs_opt_steps in He; [|cbn [batch_size]; lia].
  unfold n_train_batches, loader_len in He.
  cbn [dataset batch_size self opt_steps] in He.
  rewrite length_map, torch_rand_length in He. exact He.
Qed.

End Passes.

(* ------------------------------------------------------------------ *)
(** ** What the plateau test decides *)

Lemma combine_firstn_r {A B : Type} (d : list A) :
  forall (k : nat) (w : list B),
    (length d <= k)%nat -> combine d (firstn k w) = combine d w.
Proof.
  induction d as [|x d IH]; intros k w Hk; [reflexivity|].
  destruct k as [|k]; [cbn in Hk; lia|].
  destruct w as [|y w]; [reflexivity|].
  cbn [firstn combine]. f_equal. apply IH. cbn in Hk. lia.
Qed.

Lemma combine_map_self {A B C : Type} (g : A * B -> C) (u : list A) :
  forall w : list B,
    combine (map g (combine u w)) w = map (fun p => (g p, snd p)) (combine u w).
Proof.
  induction u as [|x u IH]; intros [|y w]; try reflexivity.
  cbn [combine map snd]. f_equal. apply IH.
Qed.

Lemma count_true_le (l : list bool) : (count_true l <= length l)%nat.
Proof. unfold count_true. apply filter_length_le. Qed.

Lemma count_true_all (l : list bool) :
  count_true l = length l <-> Forall (fun b => b = true) l.
Proof.
  unfold count_true. induction l as [|b l IH]; [split; constructor|].
  cbn [filter length]. destruct b.
  - cbn [length]. split.
    + intros Hc. constructor; [reflexivity|]. apply IH. lia.
    + intros Hf. inversion Hf; subst. f_equal. now apply IH.
  - pose proof (filter_length_le (fun b => b) l) as Hle. split; [lia|].
    intros Hf. inversion Hf. discriminate.
Qed.

Lemma small_change_iff (older newer : Q) :
  np_lt (np_abs (np_div (older - newer) newer)) (1 # 10000) = true
  <-> ~ newer == 0 /\ Qabs ((older - newer) / newer) < 1 # 10000.
Proof.
  unfold np_div. destruct (Qeq_bool newer 0) eqn:Hz.
  - apply Qeq_bool_iff in Hz. cbn. split; [discriminate|tauto].
  - cbn [np_abs np_lt]. rewrite Qlt_bool_iff. split.
    + intros H. split; [|exact H]. intros H0.
      apply Qeq_bool_iff in H0. congruence.
    + tauto.
Qed.

(** The relative changes of a window of at most 26 values, one per pair
    of neighbours [(older, newer)]. *)
Lemma relative_changes_pairs (w : list Q) :
  (length w <= 26)%nat ->
  relative_changes w
  = map (fun p => np_abs (np_div (fst p - snd p) (snd p))) (combine (tl w) w).
Proof.
  intros Hw. unfold relative_changes, np_divide, np_diff.
  rewrite combine_firstn_r.
  - rewrite combine_map_self, !map_map. reflexivity.
  - rewrite length_map, length_combine. destruct w; cbn [tl length] in *; lia.
Qed.

(** X11.  The plateau test succeeds exactly when at least 26 validation
    losses are recorded and, for every two neighbours of the 26 latest,
    the newer one is not 0 and the change relative to the newer one is
    below [1e-4] in absolute value. *)
Theorem plateau_iff (vl : list Q) :
  plateau vl = true
  <-> (26 <= length vl)%nat
      /\ Forall (fun p => ~ snd p == 0
                          /\ Qabs ((fst p - snd p) / snd p) < 1 # 10000)
                (combine (tl (plateau_window vl)) (plateau_window vl)).
Proof.
  unfold plateau.
  set (w := plateau_window vl).
  assert (Hw : length w = Nat.min 26 (length vl))
    by (subst w; unfold plateau_window; now rewrite length_firstn, length_rev).
  rewrite relative_changes_pairs by lia. rewrite map_map.
  set (pairs := combine (tl w) w).
  assert (Hp : length pairs = (length w - 1)%nat).
  { subst pairs. rewrite length_combine. destruct w; cbn [tl length]; lia. }
  set (flags := map _ pairs).
  assert (Hfl : length flags = length pairs) by (subst flags; apply length_map).
  pose proof (count_true_le flags) as Hle.
  assert (Hall : Forall (fun b => b = true) flags
                 <-> Forall (fun p => ~ snd p == 0
                                      /\ Qabs ((fst p - snd p) / snd p) < 1 # 10000)
                            pairs).
  { subst flags. rewrite Forall_map.
    split; intros H; (eapply Forall_impl; [|exact H]); intros p;
      apply small_change_iff. }
  rewrite Nat.eqb_eq. split.
  - intros Hc.
    assert (Hlen : length flags = 25%nat) by lia.
    split; [lia|]. apply Hall, count_true_all. lia.
  - intros [H26 Hf]. apply Hall, count_true_all in Hf. lia.
Qed.

(* ------------------------------------------------------------------ *)
(** ** The L2 error *)

Lemma trapz_zero (z : tensor) :
  forall x : tensor, Forall (fun v => v == 0) z -> trapz z x == 0.
Proof.
  induction z as [|z0 zs IH]; intros x Hz; [reflexivity|].
  destruct zs as [|z1 zs]; [reflexivity|].
  destruct x as [|x0 [|x1 xs]]; try reflexivity.
  change (trapz (z0 :: z1 :: zs) (x0 :: x1 :: xs))
    with ((x1 - x0) * (z0 + z1) / 2 + trapz (z1 :: zs) (x1 :: xs)).
  inversion Hz as [|? ? H0 Hz']; subst.
  rewrite (IH (x1 :: xs) Hz').
  inversion Hz' as [|? ? H1 _]; subst.
  rewrite H0, H1. unfold Qdiv. ring.
Qed.

Lemma trapz_nonneg (z : tensor) :
  forall x : tensor,
    Forall (fun v => 0 <= v) z -> Sorted Qle x -> 0 <= trapz z x.
Proof.
  induction z as [|z0 zs IH]; intros x Hz Hx; [apply Qle_refl|].
  destruct zs as [|z1 zs]; [apply Qle_refl|].
  destruct x as [|x0 [|x1 xs]]; try apply Qle_refl.
  change (trapz (z0 :: z1 :: zs) (x0 :: x1 :: xs))
    with ((x1 - x0) * (z0 + z1) / 2 + trapz (z1 :: zs) (x1 :: xs)).
  inversion Hz as [|? ? H0 Hz']; subst.
  inversion Hz' as [|? ? H1 _]; subst.
  inversion Hx as [|? ? Hx' Hhd]; subst.
  inversion Hhd as [|? ? H01]; subst.
  specialize (IH (x1 :: xs) Hz' Hx').
  assert (Hprod : 0 <= (x1 - x0) * (z0 + z1))
    by (apply Qmult_le_0_compat; lra).
  apply (Qplus_le_compat 0 _ 0 _); [|exact IH].
  unfold Qdiv. apply Qmult_le_0_compat; [exact Hprod|discriminate].
Qed.

Lemma linspace_sorted (lo hi : Q) (steps : nat) :
  lo <= hi -> Sorted Qle (linspace lo hi steps).
Proof.
  intros Hd. unfold linspace.
  set (h := (hi - lo) / inject_Z (Z.of_nat (steps - 1))).
  assert (Hh : 0 <= h).
  { subst h. unfold Qdiv. apply Qmult_le_0_compat; [lra|].
    apply Qinv_le_0_compat. change 0 with (inject_Z 0).
    rewrite <- Zle_Qle. apply Nat2Z.is_nonneg. }
  generalize 0%nat as s. clearbody h.
  induction steps as [|n IH]; intros s; [constructor|].
  cbn [seq map]. constructor; [apply IH|].
  destruct n as [|n]; [constructor|].
  cbn [seq map]. constructor.
  rewrite Nat2Z.inj_succ, <- Z.add_1_r, inject_Z_plus.
  change (inject_Z 1) with 1. nra.
Qed.

Section L2Facts.

Variable E : Collaborators.

(** X12.  Without an exact solution [L2_error] raises [TypeError].  With
    one it returns the square root of the trapezoid integral, over the
    2000 grid points from [lb] to [ub], of the squared difference between
    the solution and the network, and leaves the model in evaluation
    mode with its parameters and histories as they were.  On a domain
    with [lb <= ub] that integral is not negative, and it is 0 when the
    solution agrees with the network on the grid. *)
Theorem L2_error_radicand (m : model E) (sol : tensor -> tensor) :
  lb m <= ub m ->
  let x := linspace (lb m) (ub m) 2000 in
  let r := trapz (tsq (tsub (sol x) (value (forward E m x)))) x in
  L2_error E m None = Raise TypeError
  /\ L2_error E m (Some sol) = Ok (with_training E m false, float_sqrt E r)
  /\ 0 <= r
  /\ (sol x = value (forward E m x) -> r == 0).
Proof.
  intros Hd x r. subst r x. split; [reflexivity|].
  unfold L2_error. cbn [lb ub with_training].
  generalize 2000%nat as steps. intros steps.
  split; [reflexivity|]. split.
  - apply trapz_nonneg; [apply tsq_nonneg|now apply linspace_sorted].
  - intros Hsol. apply trapz_zero.
    unfold forward. cbn [parameters with_training].
    unfold forward in Hsol. rewrite Hsol.
    unfold tsq, tsub. apply Forall_forall. intros v Hv.
    apply in_map_iff in Hv. destruct Hv as (u & <- & Hu).
    apply in_map_iff in Hu. destruct Hu as ([p q] & <- & Hpq).
    apply sq_zero. cbn [fst snd].
    assert (Hsame : forall (l : tensor) a b, In (a, b) (combine l l) -> a = b).
    { induction l as [|c l IHl]; intros a b Hin; [contradiction|].
      cbn in Hin. destruct Hin as [Hin|Hin]; [congruence|now apply IHl]. }
    rewrite (Hsame _ _ _ Hpq). ring.
Qed.

End L2Facts.

Section MissingSolution.

Variable E : Collaborators.

Lemma train_batches_total (a : train_args) (dl : DataLoader) (xs : list tensor) :
  (display a = true -> progress_period dl <> 0%Z) ->
  forall epoch i st acc,
  exists st' acc', train_batches E a dl epoch i xs st acc = Ok (st', acc').
Proof.
  intros Hsafe. induction xs as [|x rest IH]; intros epoch i st acc.
  - now do 2 eexists.
  - cbn [train_batches]. destruct (display a) eqn:Hd; cbn [bind].
    + destruct (i =? 0)%nat; cbn [bind]; [apply IH|].
      unfold py_mod. fold (progress_period dl).
      destruct (Z.eqb_spec (progress_period dl) 0) as [H0|_];
        [now elim (Hsafe eq_refl)|].
      cbn [bind]. apply IH.
    + apply IH.
Qed.

(** X13.  Asking for the L2 error without an exact solution makes [Train]
    raise [TypeError], whatever the model: with samples, a positive
    batch size, a learning rate that is not negative, at least one epoch
    and, under display, a progress period that is not 0, nothing raises
    before the first epoch comes to its L2 error, which does. *)
Theorem Train_without_solution (a : train_args) (m : model E) (g : Rng E)
    (out : list line) :
  compute_L2_loss a = true -> true_sol a = None ->
  (0 < train_num a)%nat -> (0 < train_batch_size a)%nat ->
  0 <= learning_rate a ->
  (0 < max_epoch a)%nat ->
  (display a = true ->
   py_round (inject_Z (Z.of_nat ((train_num a + train_batch_size a - 1)
                                 / train_batch_size a)) / 5) <> 0%Z) ->
  Train E a m g out = Raise TypeError.
Proof.
  intros HL Hsol Hn Hb Hlr He Hsafe.
  unfold Train, construct_train_dataloader, optim_Adam.
  destruct (Nat.eqb_spec (train_num a) 0) as [Hz|_]; [lia|].
  destruct (Nat.eqb_spec (train_batch_size a) 0) as [H0|_]; [lia|].
  apply Qle_bool_iff in Hlr. rewrite Hlr.
  cbn [bind]. set (dl := {| dataset := _; batch_size := _ |}).
  set (st := {| self := m |}).
  assert (Hlen : n_train_batches dl
                 = ((train_num a + train_batch_size a - 1) / train_batch_size a)%nat).
  { unfold n_train_batches, loader_len. subst dl. cbn [dataset batch_size].
    now rewrite length_map, torch_rand_length. }
  assert (Hpos : n_train_batches dl <> 0%nat).
  { rewrite Hlen. intros Hz. apply Nat.div_small_iff in Hz; lia. }
  destruct (max_epoch a) as [|r]; [lia|]. cbn [epochs].
  rewrite epoch_body_stages.
  destruct (train_batches_total a dl (epoch_batches E dl st)
              ltac:(unfold progress_period; rewrite Hlen; exact Hsafe)
              0%nat 0%nat (epoch_start E a dl 0 st) 0)
    as (st_tr & acc & ->).
  cbn [bind]. unfold epoch_end, py_truediv.
  destruct (Nat.eqb_spec (n_train_batches dl) 0) as [Hz|_]; [contradiction|].
  cbn [bind]. rewrite HL. unfold L2_error. rewrite Hsol. reflexivity.
Qed.

End MissingSolution.

(* ------------------------------------------------------------------ *)
(** ** Sign of the recorded losses *)

Section RecordedLosses.

Variable E : Collaborators.
Variable a : train_args.
Variable dl : DataLoader.

Lemma train_batches_nonneg (xs : list tensor) :
  forall epoch i st acc st' acc',
    0 <= lambdas1 (lambdas (self st)) -> 0 <= lambdas2 (lambdas (self st)) ->
    0 <= acc ->
    train_batches E a dl epoch i xs st acc = Ok (st', acc') ->
    0 <= acc' /\ lambdas (self st') = lambdas (self st).
Proof.
  induction xs as [|x rest IH]; intros epoch i st acc st' acc' H1 H2 Hacc H.
  - cbn in H. injection H as <- <-. now split.
  - cbn [train_batches] in H.
    apply bind_Ok in H. destruct H as (st1 & Hshow & Hrest).
    assert (Hst1 : lambdas (self st1) = lambdas (self st)).
    { destruct (display a).
      - apply bind_Ok in Hshow. destruct Hshow as (shown & _ & Hp).
        injection Hp as <-. now destruct shown.
      - now injection Hshow as <-. }
    apply IH in Hrest; try (rewrite Hst1; assumption).
    + destruct Hrest as [Ha Hl]. split; [exact Ha|congruence].
    + apply (Qplus_le_compat 0 _ 0 _); [exact Hacc|].
      now apply sum_of_terms_nonneg.
Qed.

Lemma epoch_body_nonneg (epoch : nat) (st st1 : run E) :
  0 <= lambdas1 (lambdas (self st)) -> 0 <= lambdas2 (lambdas (self st)) ->
  epoch_body E a dl epoch st = Ok st1 ->
  exists tr va,
    train_loss (self st1) = train_loss (self st) ++ [tr]
    /\ validate_loss (self st1) = validate_loss (self st) ++ [va]
    /\ 0 <= tr /\ 0 <= va
    /\ lambdas (self st1) = lambdas (self st).
Proof.
  intros H1 H2 H.
  destruct (epoch_body_records E a dl _ _ _ H)
    as (st_tr & acc & tr & Htr & Hend & Hdiv & Ht & _).
  assert (Hs : lambdas (self (epoch_start E a dl epoch st)) = lambdas (self st))
    by (unfold epoch_start; now destruct (display a)).
  destruct (train_batches_keeps E a dl _ _ _ _ _ _ _ Htr) as ((_ & K2 & _) & _).
  destruct (epoch_start_keeps E a dl epoch st) as (_ & S2 & _).
  apply train_batches_nonneg in Htr;
    try (rewrite Hs; assumption); [|apply Qle_refl].
  destruct Htr as [Hacc Hl]. rewrite Hs in Hl.
  destruct (epoch_end_records E a dl _ _ _ _ Hend)
    as (tr' & Hdiv' & _ & R2 & _).
  exists tr. eexists. split; [exact Ht|]. split.
  { rewrite R2. f_equal. exact (eq_trans K2 S2). }
  split; [|split].
  - unfold py_truediv in Hdiv.
    destruct (n_train_batches dl =? 0)%nat; [discriminate|].
    injection Hdiv as <-. unfold Qdiv.
    apply Qmult_le_0_compat; [exact Hacc|].
    apply Qinv_le_0_compat. change 0 with (inject_Z 0).
    rewrite <- Zle_Qle. apply Nat2Z.is_nonneg.
  - apply sum_of_terms_nonneg; now rewrite Hl.
  - unfold epoch_end in Hend.
    apply bind_Ok in Hend. destruct Hend as (t & _ & Hend).
    apply bind_Ok in Hend. destruct Hend as ([st2 l2] & HL2 & Hend).
    injection Hend as <-.
    destruct (compute_L2_loss a).
    + apply bind_Ok in HL2. destruct HL2 as ([m' e] & Hm & HL2).
      injection HL2 as <- <-. apply L2_error_model in Hm. subst m'.
      destruct (display a); exact Hl.
    + injection HL2 as <- <-. destruct (display a); exact Hl.
Qed.

Lemma epochs_nonneg (r : nat) :
  forall epoch st st',
    0 <= lambdas1 (lambdas (self st)) -> 0 <= lambdas2 (lambdas (self st)) ->
    epochs E a dl r epoch st = Ok st' ->
    exists tr va,
      train_loss (self st') = train_loss (self st) ++ tr
      /\ validate_loss (self st') = validate_loss (self st) ++ va
      /\ Forall (fun v => 0 <= v) tr /\ Forall (fun v => 0 <= v) va.
Proof.
  induction r as [|r IH]; intros epoch st st' H1 H2 H.
  - cbn in H. injection H as <-. exists [], []. now rewrite !app_nil_r.
  - apply epochs_unfold in H. destruct H as (st1 & stop & st2 & Hbody & Hrule & H).
    destruct (epoch_body_nonneg _ _ _ H1 H2 Hbody)
      as (tr & va & Ht & Hv & Htr & Hva & Hl).
    pose proof (stopping_rule_self E a _ _ _ Hrule) as Hself.
    destruct stop.
    + subst st'. rewrite Hself. exists [tr], [va].
      repeat split; try assumption; now constructor.
    + apply IH in H; try (rewrite Hself, Hl; assumption).
      destruct H as (tr' & va' & Ht' & Hv' & Ftr & Fva).
      rewrite Hself in Ht', Hv'.
      exists (tr :: tr'), (va :: va').
      rewrite Ht', Hv', Ht, Hv, <- !app_assoc.
      repeat split; now constructor.
Qed.

End RecordedLosses.

Lemma py_last_in (old new : list Q) (v : Q) :
  new <> [] -> py_last (old ++ new) = Ok v -> In v new.
Proof.
  intros Hne H. destruct (exists_last Hne) as (l & x & ->).
  rewrite app_assoc, py_last_app in H. injection H as <-.
  apply in_or_app. right. now left.
Qed.

Section NonNegativeRuns.

Variable E : Collaborators.

(** X14.  With boundary weights that are not negative and a validation
    batch that is not empty ([round(train_num/3)] is positive), every
    loss a run of [Train] records, train or validation, is not
    negative.  (The training batches are never empty; an empty
    validation batch would record torch's [nan].) *)
Theorem Train_losses_nonneg (a : train_args) (m : model E) (g : Rng E)
    (out : list line) (st' : run E) :
  (0 < validate_num a)%Z ->
  0 <= lambdas1 (lambdas m) -> 0 <= lambdas2 (lambdas m) ->
  Train E a m g out = Ok st' ->
  exists tr va,
    train_loss (self st') = train_loss m ++ tr
    /\ validate_loss (self st') = validate_loss m ++ va
    /\ Forall (fun v => 0 <= v) tr /\ Forall (fun v => 0 <= v) va.
Proof.
  intros _ H1 H2 H. destruct (Train_epochs E _ _ _ _ _ H) as (dl & g' & _ & He).
  apply (epochs_nonneg E a dl) in He; [exact He|exact H1|exact H2].
Qed.

(** X15.  With boundary weights that are not negative and a tolerance
    that is not positive the convergence test never succeeds: a run that
    returns before its last epoch stopped on a plateau of more than 26
    recorded losses. *)
Theorem nonpositive_tolerance_never_converges (a : train_args) (m : model E)
    (g : Rng E) (out : list line) (st' : run E) :
  0 <= lambdas1 (lambdas m) -> 0 <= lambdas2 (lambdas m) ->
  abs_tolerance a <= 0 ->
  Train E a m g out = Ok st' ->
  (length (validate_loss (self st')) < length (validate_loss m) + max_epoch a)%nat ->
  (26 < length (validate_loss (self st')))%nat
  /\ plateau (validate_loss (self st')) = true.
Proof.
  intros H1 H2 Htol H Hshort.
  destruct (Train_epochs E _ _ _ _ _ H) as (dl & g' & _ & He).
  destruct (epochs_stop_reason E a dl _ _ _ _ He Hshort) as (v & Hlast & [Hc|Hp]);
    [|tauto].
  exfalso.
  pose proof He as Hn. apply (epochs_nonneg E a dl) in Hn; [|exact H1|exact H2].
  destruct Hn as (tr & va & _ & Hv & _ & Fva).
  cbn [self] in Hv.
  assert (Hne : va <> []).
  { intros ->. rewrite app_nil_r in Hv.
    destruct (max_epoch a) as [|r]; [rewrite Hv in Hshort; lia|].
    apply epochs_unfold in He.
    destruct He as (st1 & stop & st2 & Hbody & Hrule & He).
    destruct (epoch_body_records E a dl _ _ _ Hbody)
      as (_ & _ & _ & _ & _ & _ & _ & (va1 & Hv1) & _).
    cbn [self] in Hv1.
    pose proof (stopping_rule_self E a _ _ _ Hrule) as Hself.
    assert (Hgrow : (length (validate_loss m) < length (validate_loss (self st')))%nat).
    { destruct stop.
      - subst st'. rewrite Hself, Hv1, length_app. cbn. lia.
      - destruct (epochs_append E a dl _ _ _ _ He) as (? & va2 & ? & _ & Hv2 & _).
        rewrite Hv2, Hself, Hv1, !length_app. cbn. lia. }
    rewrite Hv in Hgrow. lia. }
  rewrite Hv in Hlast. apply (py_last_in _ _ _ Hne) in Hlast.
  rewrite Forall_forall in Fva. specialize (Fva v Hlast). cbv beta in Fva.
  apply (Qlt_not_le _ _ Hc). now apply Qle_trans with 0.
Qed.

End NonNegativeRuns.

(* ------------------------------------------------------------------ *)
(** ** What the calls leave alone *)

Section Frame.

Variable E : Collaborators.
Variable a : train_args.
Variable dl : DataLoader.

Lemma train_batches_settings (xs : list tensor) :
  forall epoch i st acc st' acc',
    train_batches E a dl epoch i xs st acc = Ok (st', acc') ->
    settings E (self st') = settings E (self st).
Proof.
  induction xs as [|x rest IH]; intros epoch i st acc st' acc' H.
  - cbn in H. now injection H as <- _.
  - cbn [train_batches] in H.
    apply bind_Ok in H. destruct H as (st1 & Hshow & Hrest).
    apply IH in Hrest. rewrite Hrest.
    destruct (display a).
    + apply bind_Ok in Hshow. destruct Hshow as (shown & _ & Hp).
      injection Hp as <-. now destruct shown.
    + now injection Hshow as <-.
Qed.

Lemma epoch_body_settings (epoch : nat) (st st1 : run E) :
  epoch_body E a dl epoch st = Ok st1 ->
  settings E (self st1) = settings E (self st).
Proof.
  intros H.
  destruct (epoch_body_records E a dl _ _ _ H)
    as (st_tr & acc & tr & Htr & Hend & _).
  apply train_batches_settings in Htr.
  assert (Hs : settings E (self (epoch_start E a dl epoch st)) = settings E (self st))
    by (unfold epoch_start; now destruct (display a)).
  rewrite Hs in Htr. rewrite <- Htr.
  unfold epoch_end in Hend.
  apply bind_Ok in Hend. destruct Hend as (t & _ & Hend).
  apply bind_Ok in Hend. destruct Hend as ([st2 l2] & HL2 & Hend).
  injection Hend as <-.
  destruct (compute_L2_loss a).
  - apply bind_Ok in HL2. destruct HL2 as ([m' e] & Hm & HL2).
    injection HL2 as <- <-. apply L2_error_model in Hm. subst m'.
    now destruct (display a).
  - injection HL2 as <- <-. now destruct (display a).
Qed.

Lemma epochs_settings (r : nat) :
  forall epoch st st',
    epochs E a dl r epoch st = Ok st' ->
    settings E (self st') = settings E (self st).
Proof.
  induction r as [|r IH]; intros epoch st st' H.
  - cbn in H. now injection H as <-.
  - apply epochs_unfold in H. destruct H as (st1 & stop & st2 & Hbody & Hrule & H).
    apply epoch_body_settings in Hbody.
    pose proof (stopping_rule_self E a _ _ _ Hrule) as Hself.
    destruct stop.
    + subst st'. now rewrite Hself.
    + apply IH in H. now rewrite H, Hself.
Qed.

End Frame.

Section FrameOfCalls.

Variable E : Collaborators.

(** X16.  Training, validation, testing and the L2 error never touch what
    states the problem: the right-hand side, the bounds, the boundary
    data, the boundary points, the weights and the architecture of the
    model are after the call what they were before it.  So a model keeps
    the boundary points the constructor gave it, [xl = [lb]] and
    [xu = [ub]], through any sequence of these calls. *)
Theorem calls_keep_settings (m : model E) :
  (forall a g out st',
      Train E a m g out = Ok st' -> settings E (self st') = settings E m)
  /\ (forall n seed g,
        settings E (fst (fst (Validate E m n seed g))) = settings E m)
  /\ (forall n seed g out,
        settings E (fst (fst (fst (Test E m n seed g out)))) = settings E m)
  /\ (forall sol m' e,
        L2_error E m sol = Ok (m', e) -> settings E m' = settings E m)
  /\ (forall f0 lb0 ub0 bc lam h n set_rff rff_num u std B g m0 g0 a g1 out st',
        init E f0 lb0 ub0 bc lam h n set_rff rff_num u std B g = Ok (m0, g0) ->
        Train E a m0 g1 out = Ok st' ->
        xl (self st') = [lb (self st')] /\ xu (self st') = [ub (self st')]).
Proof.
  assert (HT : forall a m1 g out st',
             Train E a m1 g out = Ok st' -> settings E (self st') = settings E m1).
  { intros a m1 g out st' H.
    destruct (Train_epochs E _ _ _ _ _ H) as (dl & g' & _ & He).
    now apply epochs_settings in He. }
  split; [intros a g out st'; apply HT|].
  split; [reflexivity|]. split; [reflexivity|]. split.
  - intros sol m' e H. apply L2_error_model in H. now subst m'.
  - intros f0 lb0 ub0 bc lam h n set_rff rff_num u std B g m0 g0 a g1 out st' Hi Ht.
    apply HT in Ht. unfold settings in Ht.
    destruct (init_fields E _ _ _ _ _ _ _ _ _ _ _ _ _ _ _ Hi)
      as (_ & Ilb & Iub & _ & _ & Ixl & Ixu & _).
    injection Ht as _ Hlb Hub _ Hxl Hxu _.
    rewrite Hxl, Hxu, Hlb, Hub, Ixl, Ixu, Ilb, Iub. now split.
Qed.

End FrameOfCalls.

(* ------------------------------------------------------------------ *)
(** ** The theorems above on the toy instance *)

Lemma ResidualLoss_nonneg_witness :
  Toy.two_points <> []
  /\ 0 <= lambdas1 (lambdas Toy.pinn) /\ 0 <= lambdas2 (lambdas Toy.pinn)
  /\ 0 <= ResidualLoss Toy.env Toy.pinn Toy.two_points
                       (forward Toy.env Toy.pinn Toy.two_points).
Proof.
  assert (H1 : 0 <= lambdas1 (lambdas Toy.pinn)) by (vm_compute; discriminate).
  assert (H2 : 0 <= lambdas2 (lambdas Toy.pinn)) by (vm_compute; discriminate).
  assert (Hx : Toy.two_points <> []) by discriminate.
  split; [exact Hx|]. split; [exact H1|]. split; [exact H2|].
  exact (ResidualLoss_nonneg Toy.env Toy.pinn Toy.two_points _ Hx H1 H2).
Defined.

Lemma ResidualLoss_zero_on_solution_witness :
  Toy.two_points <> []
  /\ xl Toy.solved = [lb Toy.solved] /\ xu Toy.solved = [ub Toy.solved]
  /\ Forall2 Qeq
       (map (fun q => fwd Toy.env (parameters Toy.solved) q 2%nat) Toy.two_points)
       (f Toy.solved Toy.two_points
          (map (fun q => fwd Toy.env (parameters Toy.solved) q 0%nat) Toy.two_points)
          (map (fun q => fwd Toy.env (parameters Toy.solved) q 1%nat) Toy.two_points))
  /\ (fwd Toy.env (parameters Toy.solved) (lb Toy.solved) 0%nat == BC1 (BC Toy.solved)
      /\ fwd Toy.env (parameters Toy.solved) (ub Toy.solved) 0%nat == BC2 (BC Toy.solved))
  /\ ResidualLoss Toy.env Toy.solved Toy.two_points
                  (forward Toy.env Toy.solved Toy.two_points) == 0.
Proof.
  assert (Hode : Forall2 Qeq
       (map (fun q => fwd Toy.env (parameters Toy.solved) q 2%nat) Toy.two_points)
       (f Toy.solved Toy.two_points
          (map (fun q => fwd Toy.env (parameters Toy.solved) q 0%nat) Toy.two_points)
          (map (fun q => fwd Toy.env (parameters Toy.solved) q 1%nat) Toy.two_points)))
    by (cbn; repeat constructor).
  assert (Hbc : fwd Toy.env (parameters Toy.solved) (lb Toy.solved) 0%nat
                == BC1 (BC Toy.solved)
                /\ fwd Toy.env (parameters Toy.solved) (ub Toy.solved) 0%nat
                   == BC2 (BC Toy.solved))
    by (split; reflexivity).
  assert (Hx : Toy.two_points <> []) by discriminate.
  split; [exact Hx|]. split; [reflexivity|]. split; [reflexivity|].
  split; [exact Hode|]. split; [exact Hbc|].
  exact (ResidualLoss_zero_on_solution Toy.env Toy.solved Toy.two_points
           Hx eq_refl eq_refl Hode Hbc).
Defined.

Lemma samples_in_domain_witness :
  lb Toy.pinn <= ub Toy.pinn
  /\ (forall g n, Forall (fun t => 0 <= t /\ t < 1) (fst (torch_rand Toy.env g n)))
  /\ (length (fst (sample_one_batch Toy.env Toy.pinn 4 (-1) 0%nat)) = 4%nat
      /\ Forall (fun v => lb Toy.pinn <= v /\ v <= ub Toy.pinn)
                (fst (sample_one_batch Toy.env Toy.pinn 4 (-1) 0%nat)))
  /\ (length (dataset (Toy.loader 3 5)) = 3%nat
      /\ Forall (fun v => lb Toy.pinn <= v /\ v <= ub Toy.pinn)
                (dataset (Toy.loader 3 5))).
Proof.
  assert (Hd : lb Toy.pinn <= ub Toy.pinn) by (vm_compute; discriminate).
  assert (Hrand : forall (g : Rng Toy.env) n,
             Forall (fun t => 0 <= t /\ t < 1) (fst (torch_rand Toy.env g n))).
  { intros g n. cbn. induction n as [|n IH]; cbn; constructor;
      [split; [discriminate|reflexivity]|exact IH]. }
  destruct (samples_in_domain Toy.env Toy.pinn Hd Hrand) as [Hs Hl].
  split; [exact Hd|]. split; [exact Hrand|]. split; [exact (Hs 4%nat (-1)%Z 0%nat)|].
  exact (Hl 5%nat 3%nat 0%nat (Toy.loader 3 5) 1%nat eq_refl).
Defined.

Lemma Validate_seed_witness :
  (0 < 3)%Z
  /\ Validate Toy.env Toy.pinn 2 3 0%nat = Validate Toy.env Toy.pinn 2 3 5%nat.
Proof.
  assert (H : (0 < 3)%Z) by reflexivity.
  split; [exact H|].
  exact (proj1 (Validate_seed Toy.env Toy.pinn 2 3 0%nat 5%nat) H).
Defined.

Lemma scheduler_steps_bounded_witness :
  Train Toy.env (Toy.steady 4) Toy.pinn 0%nat []
  = Ok (Toy.state_of (Train Toy.env (Toy.steady 4) Toy.pinn 0%nat [])
                     (Toy.start (Toy.steady 4)))
  /\ (last_epoch (Toy.state_of (Train Toy.env (Toy.steady 4) Toy.pinn 0%nat [])
                               (Toy.start (Toy.steady 4)))
      <= 26 - length (validate_loss Toy.pinn))%nat.
Proof.
  assert (Hrun : Train Toy.env (Toy.steady 4) Toy.pinn 0%nat []
                 = Ok (Toy.state_of (Train Toy.env (Toy.steady 4) Toy.pinn 0%nat [])
                                    (Toy.start (Toy.steady 4))))
    by (vm_compute; reflexivity).
  split; [exact Hrun|].
  exact (scheduler_steps_bounded Toy.env (Toy.steady 4) Toy.pinn 0%nat [] _ Hrun).
Defined.

Lemma learning_rate_closed_form_witness :
  Train Toy.env (Toy.steady 4) Toy.pinn 0%nat []
  = Ok (Toy.state_of (Train Toy.env (Toy.steady 4) Toy.pinn 0%nat [])
                     (Toy.start (Toy.steady 4)))
  /\ (26 < lr_step_size (Toy.steady 4))%nat
  /\ lr (Toy.state_of (Train Toy.env (Toy.steady 4) Toy.pinn 0%nat [])
                      (Toy.start (Toy.steady 4)))
     = learning_rate (Toy.steady 4).
Proof.
  assert (Hrun : Train Toy.env (Toy.steady 4) Toy.pinn 0%nat []
                 = Ok (Toy.state_of (Train Toy.env (Toy.steady 4) Toy.pinn 0%nat [])
                                    (Toy.start (Toy.steady 4))))
    by (vm_compute; reflexivity).
  assert (Hbig : (26 < lr_step_size (Toy.steady 4))%nat) by (cbn; lia).
  split; [exact Hrun|]. split; [exact Hbig|].
  exact (proj2 (learning_rate_closed_form Toy.env (Toy.steady 4) Toy.pinn 0%nat []
                  _ Hrun) Hbig).
Defined.

Lemma early_stop_reason_witness :
  Train Toy.env Toy.easy Toy.pinn 0%nat []
  = Ok (Toy.state_of (Train Toy.env Toy.easy Toy.pinn 0%nat [])
                     (Toy.start Toy.easy))
  /\ (length (validate_loss
                (self (Toy.state_of (Train Toy.env Toy.easy Toy.pinn 0%nat [])
                                    (Toy.start Toy.easy))))
      < length (validate_loss Toy.pinn) + max_epoch Toy.easy)%nat
  /\ exists v,
      py_last (validate_loss
                 (self (Toy.state_of (Train Toy.env Toy.easy Toy.pinn 0%nat [])
                                     (Toy.start Toy.easy)))) = Ok v
      /\ (v < abs_tolerance Toy.easy
          \/ (~ v < abs_tolerance Toy.easy
              /\ (26 < length (validate_loss
                                 (self (Toy.state_of
                                          (Train Toy.env Toy.easy Toy.pinn 0%nat [])
                                          (Toy.start Toy.easy)))))%nat
              /\ plateau (validate_loss
                            (self (Toy.state_of
                                     (Train Toy.env Toy.easy Toy.pinn 0%nat [])
                                     (Toy.start Toy.easy)))) = true)).
Proof.
  assert (Hrun : Train Toy.env Toy.easy Toy.pinn 0%nat []
                 = Ok (Toy.state_of (Train Toy.env Toy.easy Toy.pinn 0%nat [])
                                    (Toy.start Toy.easy)))
    by (vm_compute; reflexivity).
  assert (Hshort :
            (length (validate_loss
                       (self (Toy.state_of (Train Toy.env Toy.easy Toy.pinn 0%nat [])
                                           (Toy.start Toy.easy))))
             < length (validate_loss Toy.pinn) + max_epoch Toy.easy)%nat)
    by (vm_compute; lia).
  split; [exact Hrun|]. split; [exact Hshort|].
  exact (early_stop_reason Toy.env Toy.easy Toy.pinn 0%nat [] _ Hrun Hshort).
Defined.

Lemma Train_mode_and_output_witness :
  Train Toy.env (Toy.steady 4) Toy.pinn 0%nat []
  = Ok (Toy.state_of (Train Toy.env (Toy.steady 4) Toy.pinn 0%nat [])
                     (Toy.start (Toy.steady 4)))
  /\ (0 < max_epoch (Toy.steady 4))%nat
  /\ display (Toy.steady 4) = false
  /\ training (self (Toy.state_of (Train Toy.env (Toy.steady 4) Toy.pinn 0%nat [])
                                  (Toy.start (Toy.steady 4)))) = false
  /\ stdout (Toy.state_of (Train Toy.env (Toy.steady 4) Toy.pinn 0%nat [])
                          (Toy.start (Toy.steady 4))) = [].
Proof.
  assert (Hrun : Train Toy.env (Toy.steady 4) Toy.pinn 0%nat []
                 = Ok (Toy.state_of (Train Toy.env (Toy.steady 4) Toy.pinn 0%nat [])
                                    (Toy.start (Toy.steady 4))))
    by (vm_compute; reflexivity).
  assert (Hpos : (0 < max_epoch (Toy.steady 4))%nat) by (cbn; lia).
  assert (Hquiet : display (Toy.steady 4) = false) by reflexivity.
  destruct (Train_mode_and_output Toy.env (Toy.steady 4) Toy.pinn 0%nat [] _ Hrun)
    as [Hmode Hout].
  split; [exact Hrun|]. split; [exact Hpos|]. split; [exact Hquiet|].
  split; [exact (Hmode Hpos)|exact (Hout Hquiet)].
Defined.

Lemma pass_partitions_dataset_witness :
  (0 < batch_size (Toy.loader 5 2))%nat
  /\ Permutation
       (fst (randperm Toy.env (gen (Toy.start (Toy.steady 4)))
                      (length (dataset (Toy.loader 5 2)))))
       (seq 0 (length (dataset (Toy.loader 5 2))))
  /\ length (epoch_batches Toy.env (Toy.loader 5 2) (Toy.start (Toy.steady 4)))
     = n_train_batches (Toy.loader 5 2)
  /\ Forall (fun b => (0 < length b <= batch_size (Toy.loader 5 2))%nat)
            (epoch_batches Toy.env (Toy.loader 5 2) (Toy.start (Toy.steady 4)))
  /\ Permutation
       (concat (epoch_batches Toy.env (Toy.loader 5 2) (Toy.start (Toy.steady 4))))
       (dataset (Toy.loader 5 2)).
Proof.
  assert (Hb : (0 < batch_size (Toy.loader 5 2))%nat) by (cbn; lia).
  assert (Hp : Permutation
                 (fst (randperm Toy.env (gen (Toy.start (Toy.steady 4)))
                                (length (dataset (Toy.loader 5 2)))))
                 (seq 0 (length (dataset (Toy.loader 5 2)))))
    by apply Permutation_refl.
  destruct (pass_partitions_dataset Toy.env (Toy.loader 5 2)
              (Toy.start (Toy.steady 4)) Hb) as (Hn & Hf & Hperm).
  split; [exact Hb|]. split; [exact Hp|]. split; [exact Hn|].
  split; [exact Hf|exact (Hperm Hp)].
Defined.

Lemma Train_optimizer_steps_witness :
  Train Toy.env (Toy.two_batches false) Toy.pinn 0%nat []
  = Ok (Toy.state_of (Train Toy.env (Toy.two_batches false) Toy.pinn 0%nat [])
                     (Toy.start (Toy.two_batches false)))
  /\ (opt_steps (Toy.state_of (Train Toy.env (Toy.two_batches false) Toy.pinn 0%nat [])
                              (Toy.start (Toy.two_batches false)))
      + length (validate_loss Toy.pinn)
        * ((train_num (Toy.two_batches false)
            + train_batch_size (Toy.two_batches false) - 1)
           / train_batch_size (Toy.two_batches false))
      = length (validate_loss
                  (self (Toy.state_of
                           (Train Toy.env (Toy.two_batches false) Toy.pinn 0%nat [])
                           (Toy.start (Toy.two_batches false)))))
        * ((train_num (Toy.two_batches false)
            + train_batch_size (Toy.two_batches false) - 1)
           / train_batch_size (Toy.two_batches false)))%nat.
Proof.
  assert (Hrun : Train Toy.env (Toy.two_batches false) Toy.pinn 0%nat []
                 = Ok (Toy.state_of
                         (Train Toy.env (Toy.two_batches false) Toy.pinn 0%nat [])
                         (Toy.start (Toy.two_batches false))))
    by (vm_compute; reflexivity).
  split; [exact Hrun|].
  exact (Train_optimizer_steps Toy.env (Toy.two_batches false) Toy.pinn 0%nat []
           _ Hrun).
Defined.

Lemma plateau_iff_witness :
  (26 <= length (repeat 2 26))%nat
  /\ Forall (fun p => ~ snd p == 0 /\ Qabs ((fst p - snd p) / snd p) < 1 # 10000)
            (combine (tl (plateau_window (repeat 2 26)))
                     (plateau_window (repeat 2 26)))
  /\ plateau (repeat 2 26) = true.
Proof.
  assert (Hlen : (26 <= length (repeat 2 26))%nat) by (cbn; lia).
  assert (Hall : Forall (fun p => ~ snd p == 0
                                  /\ Qabs ((fst p - snd p) / snd p) < 1 # 10000)
                        (combine (tl (plateau_window (repeat 2 26)))
                                 (plateau_window (repeat 2 26))))
    by (vm_compute; repeat (constructor; [split; [discriminate|reflexivity]|]);
        constructor).
  split; [exact Hlen|]. split; [exact Hall|].
  exact (proj2 (plateau_iff (repeat 2 26)) (conj Hlen Hall)).
Defined.

Lemma L2_error_radicand_witness :
  lb Toy.pinn <= ub Toy.pinn
  /\ L2_error Toy.env Toy.pinn None = Raise TypeError
  /\ L2_error Toy.env Toy.pinn (Some (map (fun _ => 1)))
     = Ok (with_training Toy.env Toy.pinn false,
           float_sqrt Toy.env
             (trapz (tsq (tsub (map (fun _ => 1)
                                    (linspace (lb Toy.pinn) (ub Toy.pinn) 2000))
                               (value (forward Toy.env Toy.pinn
                                         (linspace (lb Toy.pinn) (ub Toy.pinn)
                                                   2000)))))
                    (linspace (lb Toy.pinn) (ub Toy.pinn) 2000)))
  /\ 0 <= trapz (tsq (tsub (map (fun _ => 1)
                                (linspace (lb Toy.pinn) (ub Toy.pinn) 2000))
                           (value (forward Toy.env Toy.pinn
                                     (linspace (lb Toy.pinn) (ub Toy.pinn)
                                               2000)))))
                (linspace (lb Toy.pinn) (ub Toy.pinn) 2000).
Proof.
  assert (Hd : lb Toy.pinn <= ub Toy.pinn) by (vm_compute; discriminate).
  destruct (L2_error_radicand Toy.env Toy.pinn (map (fun _ => 1)) Hd)
    as (Hnone & Hsome & Hpos & _).
  split; [exact Hd|]. split; [exact Hnone|]. split; [exact Hsome|exact Hpos].
Defined.

Lemma Train_without_solution_witness :
  compute_L2_loss Toy.unsolved = true /\ true_sol Toy.unsolved = None
  /\ (0 < train_num Toy.unsolved)%nat /\ (0 < train_batch_size Toy.unsolved)%nat
  /\ 0 <= learning_rate Toy.unsolved
  /\ (0 < max_epoch Toy.unsolved)%nat
  /\ Train Toy.env Toy.unsolved Toy.pinn 0%nat [] = Raise TypeError.
Proof.
  assert (Hn : (0 < train_num Toy.unsolved)%nat) by (cbn; lia).
  assert (Hb : (0 < train_batch_size Toy.unsolved)%nat) by (cbn; lia).
  assert (Hlr : 0 <= learning_rate Toy.unsolved) by (vm_compute; discriminate).
  assert (He : (0 < max_epoch Toy.unsolved)%nat) by (cbn; lia).
  assert (Hshow : display Toy.unsolved = true ->
                  py_round (inject_Z (Z.of_nat
                              ((train_num Toy.unsolved
                                + train_batch_size Toy.unsolved - 1)
                               / train_batch_size Toy.unsolved)) / 5) <> 0%Z)
    by discriminate.
  split; [reflexivity|]. split; [reflexivity|].
  split; [exact Hn|]. split; [exact Hb|]. split; [exact Hlr|]. split; [exact He|].
  exact (Train_without_solution Toy.env Toy.unsolved Toy.pinn 0%nat []
           eq_refl eq_refl Hn Hb Hlr He Hshow).
Defined.

Lemma Train_losses_nonneg_witness :
  (0 < validate_num (Toy.steady 4))%Z
  /\ 0 <= lambdas1 (lambdas Toy.pinn) /\ 0 <= lambdas2 (lambdas Toy.pinn)
  /\ Train Toy.env (Toy.steady 4) Toy.pinn 0%nat []
     = Ok (Toy.state_of (Train Toy.env (Toy.steady 4) Toy.pinn 0%nat [])
                        (Toy.start (Toy.steady 4)))
  /\ exists tr va,
      let st' := Toy.state_of (Train Toy.env (Toy.steady 4) Toy.pinn 0%nat [])
                              (Toy.start (Toy.steady 4)) in
      train_loss (self st') = train_loss Toy.pinn ++ tr
      /\ validate_loss (self st') = validate_loss Toy.pinn ++ va
      /\ Forall (fun v => 0 <= v) tr /\ Forall (fun v => 0 <= v) va.
Proof.
  assert (H1 : 0 <= lambdas1 (lambdas Toy.pinn)) by (vm_compute; discriminate).
  assert (H2 : 0 <= lambdas2 (lambdas Toy.pinn)) by (vm_compute; discriminate).
  assert (Hrun : Train Toy.env (Toy.steady 4) Toy.pinn 0%nat []
                 = Ok (Toy.state_of (Train Toy.env (Toy.steady 4) Toy.pinn 0%nat [])
                                    (Toy.start (Toy.steady 4))))
    by (vm_compute; reflexivity).
  assert (Hv : (0 < validate_num (Toy.steady 4))%Z) by (vm_compute; reflexivity).
  split; [exact Hv|]. split; [exact H1|]. split; [exact H2|]. split; [exact Hrun|].
  exact (Train_losses_nonneg Toy.env (Toy.steady 4) Toy.pinn 0%nat [] _
           Hv H1 H2 Hrun).
Defined.

Lemma nonpositive_tolerance_never_converges_witness :
  0 <= lambdas1 (lambdas Toy.pinn) /\ 0 <= lambdas2 (lambdas Toy.pinn)
  /\ abs_tolerance (Toy.stalled 40) <= 0
  /\ Train Toy.env (Toy.stalled 40) Toy.pinn 0%nat []
     = Ok (Toy.state_of (Train Toy.env (Toy.stalled 40) Toy.pinn 0%nat [])
                        (Toy.start (Toy.stalled 40)))
  /\ (length (validate_loss
                (self (Toy.state_of (Train Toy.env (Toy.stalled 40) Toy.pinn 0%nat [])
                                    (Toy.start (Toy.stalled 40)))))
      < length (validate_loss Toy.pinn) + max_epoch (Toy.stalled 40))%nat
  /\ (26 < length (validate_loss
                     (self (Toy.state_of
                              (Train Toy.env (Toy.stalled 40) Toy.pinn 0%nat [])
                              (Toy.start (Toy.stalled 40))))))%nat
  /\ plateau (validate_loss
                (self (Toy.state_of (Train Toy.env (Toy.stalled 40) Toy.pinn 0%nat [])
                                    (Toy.start (Toy.stalled 40))))) = true.
Proof.
  assert (H1 : 0 <= lambdas1 (lambdas Toy.pinn)) by (vm_compute; discriminate).
  assert (H2 : 0 <= lambdas2 (lambdas Toy.pinn)) by (vm_compute; discriminate).
  assert (Htol : abs_tolerance (Toy.stalled 40) <= 0) by (vm_compute; discriminate).
  assert (Hrun : Train Toy.env (Toy.stalled 40) Toy.pinn 0%nat []
                 = Ok (Toy.state_of (Train Toy.env (Toy.stalled 40) Toy.pinn 0%nat [])
                                    (Toy.start (Toy.stalled 40))))
    by (vm_compute; reflexivity).
  assert (Hshort :
            (length (validate_loss
                       (self (Toy.state_of
                                (Train Toy.env (Toy.stalled 40) Toy.pinn 0%nat [])
                                (Toy.start (Toy.stalled 40)))))
             < length (validate_loss Toy.pinn) + max_epoch (Toy.stalled 40))%nat)
    by (vm_compute; lia).
  split; [exact H1|]. split; [exact H2|]. split; [exact Htol|].
  split; [exact Hrun|]. split; [exact Hshort|].
  exact (nonpositive_tolerance_never_converges Toy.env (Toy.stalled 40) Toy.pinn
           0%nat [] _ H1 H2 Htol Hrun Hshort).
Defined.

Lemma calls_keep_settings_witness :
  Train Toy.env (Toy.steady 4) Toy.pinn 0%nat []
  = Ok (Toy.state_of (Train Toy.env (Toy.steady 4) Toy.pinn 0%nat [])
                     (Toy.start (Toy.steady 4)))
  /\ settings Toy.env
       (self (Toy.state_of (Train Toy.env (Toy.steady 4) Toy.pinn 0%nat [])
                           (Toy.start (Toy.steady 4))))
     = settings Toy.env Toy.pinn.
Proof.
  assert (Hrun : Train Toy.env (Toy.steady 4) Toy.pinn 0%nat []
                 = Ok (Toy.state_of (Train Toy.env (Toy.steady 4) Toy.pinn 0%nat [])
                                    (Toy.start (Toy.steady 4))))
    by (vm_compute; reflexivity).
  split; [exact Hrun|].
  exact (proj1 (calls_keep_settings Toy.env Toy.pinn)
           (Toy.steady 4) 0%nat [] _ Hrun).
Defined.
